(** * Ecommerce modelling with attrs: products, orders and their totals

    A shallow embedding of [attrs/ecomerce_example_attrs.py].

    - Python numbers are modelled as they are at run time: unbounded [int]
      (as [Z]), [bool] (a subclass of [int]) and [float] (IEEE 754 binary64,
      through the Standard Library's executable specification [SpecFloat]).
    - Exceptions are results of an error monad.
    - The validators, [Product] and [Order] follow the source line by line.
    - A store with object identities models the references an [Order] holds
      (its list object and the [Product] objects inside it). *)

From Stdlib Require Import ZArith String Ascii List SpecFloat Lia.
From stdpp Require Import base option list strings gmap.
Import ListNotations.

Local Open Scope string_scope.
Local Open Scope Z_scope.

(** ** Python floats: binary64 *)

Module Float.

Definition prec : Z := 53.
Definition emax : Z := 1024.

Definition t : Type := spec_float.

Definition add : t -> t -> t := SFadd prec emax.
Definition mul : t -> t -> t := SFmul prec emax.
Definition div : t -> t -> t := SFdiv prec emax.

(** The double nearest to an integer (ties to even); an infinity when the
    integer is out of range. *)
Definition of_Z (z : Z) : t := binary_normalize prec emax z 0 false.

(** A decimal literal [n / d] of the source text, correctly rounded:
    [dec 7 100] is the literal [0.07]. Both [n] and [d] are below [2^53],
    so they convert exactly and the division rounds once. *)
Definition dec (n d : Z) : t := div (of_Z n) (of_Z d).

Definition zero : t := S754_zero false.

(** Exact comparison of a float with an integer, as CPython's
    [float_richcompare] decides it: no rounding of the integer. *)
Definition compare_Z (f : t) (z : Z) : option comparison :=
  match f with
  | S754_nan => None
  | S754_infinity s => Some (if s then Lt else Gt)
  | S754_zero _ => Some (0 ?= z)
  | S754_finite s m e =>
      let sm := if s then Z.neg m else Z.pos m in
      Some (if 0 <=? e then (sm * 2 ^ e ?= z) else (sm ?= z * 2 ^ (- e)))
  end.

End Float.

(** ** Python values and exceptions *)

(** The numeric objects the program handles. *)
Inductive pyval : Type :=
  | VInt (z : Z)
  | VBool (b : bool)
  | VFloat (f : Float.t).

(** The classes [instance_of] is asked about. *)
Inductive pytype : Type := TInt | TBool | TFloat.

(** [isinstance(v, t)]: [bool] is a subclass of [int]. *)
Definition isinstance (v : pyval) (t : pytype) : bool :=
  match t, v with
  | TInt, (VInt _ | VBool _) => true
  | TBool, VBool _ => true
  | TFloat, VFloat _ => true
  | _, _ => false
  end.

(** [ValueError(msg)] is what the validators of this file raise;
    [TypeError] is raised by attrs' [instance_of] with the arguments
    [(msg, attribute, type, value)], of which the attribute name, the
    expected type and the value are kept; [OverflowError] is the
    conversion of an [int] too large for a [float]. *)
Inductive exn : Type :=
  | ValueError (msg : string)
  | TypeError (attribute : string) (expected : pytype) (value : pyval)
  | OverflowError.

Inductive result (A : Type) : Type :=
  | Ok (a : A)
  | Raise (e : exn).
Arguments Ok {A} a.
Arguments Raise {A} e.

Definition bind {A B : Type} (c : result A) (k : A -> result B) : result B :=
  match c with
  | Ok a => k a
  | Raise e => Raise e
  end.

Declare Scope py_scope.
Delimit Scope py_scope with py.
Notation "x <- c ;; k" := (bind c (fun x => k))
  (at level 100, c at next level, right associativity) : py_scope.
Notation "c ;;; k" := (bind c (fun _ => k))
  (at level 100, k at level 200, right associativity) : py_scope.
Local Open Scope py_scope.

Definition is_ValueError (e : exn) : bool :=
  match e with ValueError _ => true | _ => false end.

Definition is_TypeError (e : exn) : bool :=
  match e with TypeError _ _ _ => true | _ => false end.

(** *** Arithmetic and comparisons *)

Definition int_of_bool (b : bool) : Z := if b then 1 else 0.

(** [float(i)] for an [int]: [OverflowError] when out of range. *)
Definition float_of_int (z : Z) : result Float.t :=
  match Float.of_Z z with
  | S754_infinity _ => Raise OverflowError
  | f => Ok f
  end.

(** What a binary arithmetic operator does on two numbers: on two
    integers the integer operation, otherwise the integer operand is
    converted and the float operation applies. *)
Definition arith (iop : Z -> Z -> Z) (fop : Float.t -> Float.t -> Float.t)
    (a b : pyval) : result pyval :=
  let as_int v :=
    match v with
    | VInt z => Some z
    | VBool b => Some (int_of_bool b)
    | VFloat _ => None
    end in
  let as_float v :=
    match v with
    | VInt z => float_of_int z
    | VBool b => float_of_int (int_of_bool b)
    | VFloat f => Ok f
    end in
  match as_int a, as_int b with
  | Some x, Some y => Ok (VInt (iop x y))
  | _, _ =>
      x <- as_float a ;;
      y <- as_float b ;;
      Ok (VFloat (fop x y))
  end.

Definition py_add : pyval -> pyval -> result pyval := arith Z.add Float.add.
Definition py_mul : pyval -> pyval -> result pyval := arith Z.mul Float.mul.

(** Three-way comparison of two numbers; [None] when one is a NaN. *)
Definition py_compare (a b : pyval) : option comparison :=
  let int_or_float v :=
    match v with
    | VInt z => inl z
    | VBool b => inl (int_of_bool b)
    | VFloat f => inr f
    end in
  match int_or_float a, int_or_float b with
  | inl x, inl y => Some (x ?= y)
  | inr f, inl y => Float.compare_Z f y
  | inl x, inr g => CompOpp <$> Float.compare_Z g x
  | inr f, inr g => SFcompare f g
  end.

Definition py_lt (a b : pyval) : bool :=
  match py_compare a b with Some Lt => true | _ => false end.
Definition py_le (a b : pyval) : bool :=
  match py_compare a b with Some (Lt | Eq) => true | _ => false end.
Definition py_eq (a b : pyval) : bool :=
  match py_compare a b with Some Eq => true | _ => false end.

(** The builtin [sum(iterable)], with its default [start=0], by its
    documented meaning: the items are added to [start] from left to right
    with [+]. The iterable is a generator here, so each item is computed
    (and may raise) when the loop reaches it.
    CPython adds floats this way up to version 3.11; from 3.12 on it
    keeps a compensation term, which can change the last bit of a sum of
    three or more floats. Sums of integers, of at most two floats, and
    whether a sum returns, raises or is a NaN are the same either way. *)
Fixpoint sum_from (acc : pyval) (iterable : list (result pyval)) : result pyval :=
  match iterable with
  | [] => Ok acc
  | item :: rest =>
      x <- item ;;
      acc' <- py_add acc x ;;
      sum_from acc' rest
  end.

Definition py_sum (iterable : list (result pyval)) : result pyval :=
  sum_from (VInt 0) iterable.

(** *** Strings *)

(** A [str] is modelled by the sequence of its code points, for the code
    points below 256 (ASCII and Latin-1): a character of a Rocq [string]
    stands for the code point of its number, so ["201"%char] is the capital
    E with acute accent and ["233"%char] the small one. A text with other
    code points is outside the model.
    On these strings [str.lower] works character by character: the capital
    letters, which are 65-90 ([A]-[Z]), 192-214 and 216-222 (the accented
    capitals; 215 is the multiplication sign), move 32 places up to their
    small letters, and every other character stays. *)
Definition is_upper (c : ascii) : bool :=
  let n := N_of_ascii c in
  (((65 <=? n) && (n <=? 90))
   || ((192 <=? n) && (n <=? 222) && negb (n =? 215)))%N.

Definition lower_char (c : ascii) : ascii :=
  if is_upper c then ascii_of_N (N_of_ascii c + 32) else c.

Fixpoint str_lower (s : string) : string :=
  match s with
  | EmptyString => EmptyString
  | String c rest => String (lower_char c) (str_lower rest)
  end.

(** ** Product *)

(** The attrs [Attribute] object a validator receives; only its [name] is
    read. *)
Module Attribute.
Record t : Type := mk { name : string }.
End Attribute.

Record Product : Type := mkProduct {
  name : string;
  category : string;
  shipping_weight : pyval;
  unit_price : pyval;
  tax_percent : pyval
}.

(** [instance.__class__.__name__]: [Product] is the only class whose
    fields carry these validators, and it has no subclass. *)
Definition class_name_of (instance : Product) : string := "Product".

Definition validator : Type := Product -> Attribute.t -> pyval -> result unit.

Definition positive_number : validator := fun instance attribute value =>
  let class_name := class_name_of instance in
  if py_le value (VInt 0) then
    Raise (ValueError
      (class_name +:+ " " +:+ Attribute.name attribute
         +:+ " attribute must be greater then zero."))
  else Ok tt.

Definition percentage_value : validator := fun instance attribute value =>
  let class_name := class_name_of instance in
  if negb (py_lt (VInt 0) value && py_lt value (VInt 1)) then
    Raise (ValueError
      (class_name +:+ " " +:+ Attribute.name attribute
         +:+ " attribute must be between 0 and 1."))
  else Ok tt.

(** attrs' [validators.instance_of(type)]. *)
Definition instance_of (type : pytype) : validator := fun _ attribute value =>
  if isinstance value type then Ok tt
  else Raise (TypeError (Attribute.name attribute) type value).

(** A list given as [validator=[...]] runs its members in order and stops
    at the first that raises (attrs' [and_]). *)
Fixpoint and_ (validators : list validator) : validator :=
  fun instance attribute value =>
    match validators with
    | [] => Ok tt
    | v :: rest =>
        v instance attribute value ;;;
        and_ rest instance attribute value
    end.

Definition shipping_weight_field : Attribute.t * validator :=
  (Attribute.mk "shipping_weight", and_ [instance_of TFloat; positive_number]).
Definition unit_price_field : Attribute.t * validator :=
  (Attribute.mk "unit_price", and_ [instance_of TInt; positive_number]).
Definition tax_percent_field : Attribute.t * validator :=
  (Attribute.mk "tax_percent", and_ [instance_of TFloat; percentage_value]).

Definition validate (field : Attribute.t * validator) (instance : Product)
    (value : pyval) : result unit :=
  snd field instance (fst field) value.

(** The [__init__] attrs generates: every attribute is assigned, then the
    validators run in the order of the fields; the instance is returned
    only when none raised. *)
Definition Product_init (name category : string)
    (shipping_weight unit_price tax_percent : pyval) : result Product :=
  let self := mkProduct name category shipping_weight unit_price tax_percent in
  validate shipping_weight_field self shipping_weight ;;;
  validate unit_price_field self unit_price ;;;
  validate tax_percent_field self tax_percent ;;;
  Ok self.

(** The [__eq__] attrs generates: the fields with [eq=False] are left out,
    the others are compared through their [eq] key, here [str.lower]. *)
Definition Product_eq (self other : Product) : bool :=
  String.eqb (str_lower (name self)) (str_lower (name other))
  && String.eqb (str_lower (category self)) (str_lower (category other)).

(** What a [Product] holds once [Product_init] returned it. *)
Definition valid_Product (p : Product) : Prop :=
  (exists f, shipping_weight p = VFloat f /\ py_le (VFloat f) (VInt 0) = false)
  /\ isinstance (unit_price p) TInt = true
  /\ py_le (unit_price p) (VInt 0) = false
  /\ (exists f, tax_percent p = VFloat f
       /\ py_lt (VInt 0) (VFloat f) = true /\ py_lt (VFloat f) (VInt 1) = true).

(** ** Order *)

(** A calendar date, as [datetime.date] holds it. *)
Record date : Type := mkDate { year : Z; month : Z; day : Z }.

(** The state of an [Order] object as its methods see it: the [products]
    list is shown with its contents. The identities of the list and of the
    products are the matter of [Store] below. *)
Record Order : Type := mkOrder {
  status : string;
  creation_date : date;
  products : list Product
}.

(** What executing the class body leaves in the class: the default of
    [creation_date] is the value of the expression [date.today()] when the
    body runs; [products] has a factory and [status] no default. *)
Record Order_class : Type := mkOrder_class { creation_date_default : date }.

(** The class statement, executed when the clock shows [today]. *)
Definition define_Order (today : date) : Order_class :=
  mkOrder_class today.

(** The keyword-only [__init__] attrs generates. [now] is the date the
    clock shows during the call; the generated code does not read it.
    An omitted [creation_date] takes the class's default, an omitted
    [products] the result of the factory [list()]. *)
Definition Order_init (cls : Order_class) (now : date) (status : string)
    (creation_date : option date) (products : option (list Product)) : Order :=
  mkOrder status
    (default (creation_date_default cls) creation_date)
    (default [] products).

Definition add_item (self : Order) (product : Product) : Order :=
  mkOrder (status self) (creation_date self) (products self ++ [product]).

Definition calculate_sub_total (self : Order) : result pyval :=
  py_sum (map (fun p => Ok (unit_price p)) (products self)).

Definition calculate_tax (self : Order) : result pyval :=
  py_sum (map (fun p => py_mul (unit_price p) (tax_percent p)) (products self)).

Definition calculate_total (self : Order) : result pyval :=
  sub_total <- calculate_sub_total self ;;
  tax <- calculate_tax self ;;
  py_add sub_total tax.

Definition total_weight (self : Order) : result pyval :=
  py_sum (map (fun p => Ok (shipping_weight p)) (products self)).

(** ** The object store *)

(** Python objects have identity: an [Order] holds a reference to a list
    object, and that list holds references to [Product] objects. *)
Module Store.

Definition loc : Type := positive.

Inductive object : Type :=
  | OProduct (p : Product)
  | OList (items : list loc)
  | OOrder (status : string) (creation_date : date) (products : loc).

Abbreviation heap := (gmap loc object).

Definition alloc (o : object) (h : heap) : loc * heap :=
  let l := fresh (dom h) in (l, <[l := o]> h).

(** [Product(...)]: a new object when validation passes, no object and
    an unchanged store otherwise. *)
Definition Product_new (name category : string)
    (shipping_weight unit_price tax_percent : pyval) (h : heap)
    : result (loc * heap) :=
  self <- Product_init name category shipping_weight unit_price tax_percent ;;
  Ok (alloc (OProduct self) h).

(** [Order(...)]: [products] is stored as the reference it was given;
    when omitted, the factory allocates a new empty list. *)
Definition Order_new (cls : Order_class) (now : date) (status : string)
    (creation_date : option date) (products : option loc) (h : heap)
    : loc * heap :=
  let '(l, h1) :=
    match products with
    | Some l => (l, h)
    | None => alloc (OList []) h
    end in
  alloc (OOrder status (default (creation_date_default cls) creation_date) l) h1.

(** [l.append(x)] on a list object. *)
Definition list_append (l x : loc) (h : heap) : option heap :=
  match h !! l with
  | Some (OList items) => Some (<[l := OList (items ++ [x])]> h)
  | _ => None
  end.

(** [self.products.append(product)] *)
Definition add_item (self product : loc) (h : heap) : option heap :=
  match h !! self with
  | Some (OOrder _ _ l) => list_append l product h
  | _ => None
  end.

(** [p.unit_price = value]: a class made by [define] validates on
    assignment and assigns only when the validators pass. *)
Definition set_unit_price (p : loc) (value : pyval) (h : heap)
    : option (result heap) :=
  match h !! p with
  | Some (OProduct pr) =>
      Some (validate unit_price_field pr value ;;;
            Ok (<[p := OProduct
                   (mkProduct (name pr) (category pr) (shipping_weight pr)
                      value (tax_percent pr))]> h))
  | _ => None
  end.

Definition get_product (h : heap) (l : loc) : option Product :=
  match h !! l with
  | Some (OProduct p) => Some p
  | _ => None
  end.

(** The references in [self.products]. *)
Definition product_refs (h : heap) (self : loc) : option (list loc) :=
  match h !! self with
  | Some (OOrder _ _ l) =>
      match h !! l with
      | Some (OList items) => Some items
      | _ => None
      end
  | _ => None
  end.

(** The state of the order at [self], its products read through the
    references. *)
Definition view (h : heap) (self : loc) : option Order :=
  match h !! self with
  | Some (OOrder s d _) =>
      items ← product_refs h self;
      ps ← mapM (get_product h) items;
      Some (mkOrder s d ps)
  | _ => None
  end.

End Store.

(** ** Messages of the validators *)

Definition greater_then_zero_msg (attribute : string) : string :=
  "Product " +:+ attribute +:+ " attribute must be greater then zero.".

Definition between_0_and_1_msg (attribute : string) : string :=
  "Product " +:+ attribute +:+ " attribute must be between 0 and 1.".


(** ** The values of [main] *)

Definition banana : Product :=
  mkProduct "banana" "fruit"
    (VFloat (Float.dec 5 10)) (VInt 215) (VFloat (Float.dec 7 100)).

Definition mango : Product :=
  mkProduct "mango" "fruit"
    (VFloat (Float.dec 20 10)) (VInt 319) (VFloat (Float.dec 11 100)).

Definition expensive_mango : Product :=
  mkProduct "Mango" "Fruit"
    (VFloat (Float.dec 40 10)) (VInt 800) (VFloat (Float.dec 20 100)).

(** The order of [main] on a day [today], when the class was defined on
    the same day: as opened, and with the banana and the mango in it. *)
Definition openned (today : date) : Order :=
  Order_init (define_Order today) today "openned" (Some today) None.

Definition order_of_two (today : date) : Order :=
  add_item (add_item (openned today) banana) mango.

Definition new_year : date := mkDate 2024 1 1.
Definition day_after : date := mkDate 2024 1 2.

(** ** Equality up to letter case *)







(** A string literal of this file is read byte by byte, and a letter with
    an accent takes two bytes there (UTF-8). [of_utf8] reads such a literal
    into the string of its code points; [None] when the bytes are not the
    encoding of code points below 256. *)
Fixpoint of_utf8 (s : string) : option string :=
  match s with
  | EmptyString => Some EmptyString
  | String c rest =>
      let n := N_of_ascii c in
      if (n <? 128)%N then String c <$> of_utf8 rest
      else
        match rest with
        | String d rest' =>
            let m := N_of_ascii d in
            if ((128 <=? m) && (m <? 192))%N then
              if (n =? 194)%N then String d <$> of_utf8 rest'
              else if (n =? 195)%N then
                String (ascii_of_N (m + 64)) <$> of_utf8 rest'
              else None
            else None
        | EmptyString => None
        end
  end.

(** One word written with a capital and with a small E acute. *)
Definition Eclair : string := String "201" "clair".
Definition eclair : string := String "233" "clair".

(** ** Sums of integers *)

(** The integer an [int] or [bool] object stands for. *)
Definition int_value (v : pyval) : Z :=
  match v with
  | VInt z => z
  | VBool b => int_of_bool b
  | VFloat _ => 0
  end.

Definition Z_sum (l : list Z) : Z := fold_right Z.add 0 l.

(** An integer that [float()] converts without [OverflowError]. *)
Definition in_float_range (z : Z) : Prop :=
  exists f, float_of_int z = Ok f.

(** ** Runs on the store *)

(** [Order(status="openned")] in an empty store: the new order and the
    store it leaves. *)
Definition fresh_order_run : Store.loc * gmap Store.loc Store.object :=
  Store.Order_new (define_Order new_year) new_year "openned" None None ∅.


(** [lst = []; o = Order(status="openned", products=lst); p = Product(...)],
    then [lst.append(p)]: the order seen before and after the append. *)
Definition shared_list_run : option (Order * Order) :=
  let '(lst, h1) := Store.alloc (Store.OList []) ∅ in
  let '(o, h2) :=
    Store.Order_new (define_Order new_year) new_year "openned" None (Some lst) h1 in
  match Store.Product_new "banana" "fruit"
          (VFloat (Float.dec 5 10)) (VInt 215) (VFloat (Float.dec 7 100)) h2 with
  | Ok (p, h3) =>
      before ← Store.view h3 o;
      h4 ← Store.list_append lst p h3;
      after ← Store.view h4 o;
      Some (before, after)
  | Raise _ => None
  end.

(** [o = Order(status="openned"); p = Product(...); o.add_item(p)], then
    [p.unit_price = 800]: the order seen before and after the assignment. *)
Definition repriced_run : option (Order * Order) :=
  let '(o, h1) :=
    Store.Order_new (define_Order new_year) new_year "openned" None None ∅ in
  match Store.Product_new "banana" "fruit"
          (VFloat (Float.dec 5 10)) (VInt 215) (VFloat (Float.dec 7 100)) h1 with
  | Ok (p, h2) =>
      h3 ← Store.add_item o p h2;
      before ← Store.view h3 o;
      match Store.set_unit_price p (VInt 800) h3 with
      | Some (Ok h4) =>
          after ← Store.view h4 o;
          Some (before, after)
      | _ => None
      end
  | Raise _ => None
  end.

(** ** Shapes of floats and of exceptions *)

(** A float above zero: a finite positive one or the positive infinity. *)
Definition float_positive (f : Float.t) : Prop :=
  f = S754_infinity false \/ exists m e, f = S754_finite false m e.

(** The six exceptions a construction with the arguments [sw], [up], [tp]
    can end with. *)
Definition construction_errors (sw up tp : pyval) : list exn :=
  [ TypeError "shipping_weight" TFloat sw;
    ValueError (greater_then_zero_msg "shipping_weight");
    TypeError "unit_price" TInt up;
    ValueError (greater_then_zero_msg "unit_price");
    TypeError "tax_percent" TFloat tp;
    ValueError (between_0_and_1_msg "tax_percent") ].

(** The number [sum] has reached while adding floats: its start [0] or a
    float. *)
Definition zero_or_float (v : pyval) : Prop :=
  v = VInt 0 \/ exists f, v = VFloat f.

(** A product priced above what a float can hold. *)
Definition priceless : Product :=
  mkProduct "diamond" "jewel"
    (VFloat (Float.dec 5 10)) (VInt (2 ^ 1024)) (VFloat (Float.dec 7 100)).

(** A product that weighs NaN, which its validators accept. *)
Definition weightless : Product :=
  mkProduct "cloud" "weather"
    (VFloat S754_nan) (VInt 1) (VFloat (Float.dec 7 100)).

(** Two products of [2^1023] each: either price converts to a float, their
    sum does not. *)
Definition half_of_too_much : Product :=
  mkProduct "ingot" "metal"
    (VFloat (Float.dec 5 10)) (VInt (2 ^ 1023)) (VFloat (Float.dec 7 100)).

(** [o = Order(status="openned"); p = Product("banana", ...)] in an empty
    store: the order, the product and the store they leave. *)
Definition stocked_run : Store.loc * Store.loc * gmap Store.loc Store.object :=
  let '(o, h1) := fresh_order_run in
  match Store.Product_new "banana" "fruit"
          (VFloat (Float.dec 5 10)) (VInt 215) (VFloat (Float.dec 7 100)) h1 with
  | Ok (p, h2) => (o, p, h2)
  | Raise _ => (o, o, h1)
  end.

(** The same store after [o.add_item(p)], and a second order made in it
    the day after: [Order(status="paid")]. *)
Definition busy_run : Store.loc * Store.loc * gmap Store.loc Store.object :=
  let '(o, p, h) := stocked_run in
  match Store.add_item o p h with
  | Some h' => (o, p, h')
  | None => (o, p, h)
  end.

Definition second_order_run : Store.loc * gmap Store.loc Store.object :=
  Store.Order_new (define_Order new_year) day_after "paid" None None busy_run.2.

(** ** The arithmetic of reference *)

(** IEEE 754 binary64, round to nearest even, as the Standard Library
    specifies it: the conversion of an integer, and the tax term of a
    product, [float(unit_price) * tax_percent]. *)
Definition binary64_of_Z (z : Z) : spec_float :=
  binary_normalize 53 1024 z 0 false.


Definition float_value (v : pyval) : spec_float :=
  match v with
  | VFloat f => f
  | _ => S754_nan
  end.

Definition tax_term (p : Product) : spec_float :=
  SFmul 53 1024 (binary64_of_Z (int_value (unit_price p)))
    (float_value (tax_percent p)).

(** * Properties *)

(** ** Numbers *)

Example literals :
  Float.dec 5 10 = S754_finite false 4503599627370496 (-53)
  /\ Float.dec 7 100 = S754_finite false 5044031582654956 (-56)
  /\ Float.dec 11 100 = S754_finite false 7926335344172073 (-56).
Proof. repeat split; vm_compute; reflexivity. Qed.

Example comparisons :
  py_le (VFloat (Float.dec 5 10)) (VInt 0) = false
  /\ py_le (VFloat (S754_zero true)) (VInt 0) = true
  /\ py_le (VFloat S754_nan) (VInt 0) = false
  /\ py_lt (VInt 0) (VFloat S754_nan) = false
  /\ py_lt (VFloat (Float.dec 10 10)) (VInt 1) = false
  /\ py_le (VBool true) (VInt 0) = false
  /\ py_eq (VInt 0) (VFloat Float.zero) = true.
Proof. repeat split; vm_compute; reflexivity. Qed.

Example int_too_large_for_float :
  float_of_int (2 ^ 1024) = Raise OverflowError
  /\ float_of_int (2 ^ 1024 - 2 ^ 970 - 1)
     = Ok (S754_finite false 9007199254740991 971).
Proof. split; vm_compute; reflexivity. Qed.

(** ** Validation of one field *)

Lemma validate_shipping_weight self v :
  validate shipping_weight_field self v =
    if isinstance v TFloat then
      if py_le v (VInt 0)
      then Raise (ValueError (greater_then_zero_msg "shipping_weight"))
      else Ok tt
    else Raise (TypeError "shipping_weight" TFloat v).
Proof.
  unfold validate, shipping_weight_field, and_, instance_of, positive_number.
  cbn [fst snd Attribute.name bind].
  destruct (isinstance v TFloat); [| reflexivity].
  cbn [bind]. destruct (py_le v (VInt 0)); reflexivity.
Qed.

Lemma validate_unit_price self v :
  validate unit_price_field self v =
    if isinstance v TInt then
      if py_le v (VInt 0)
      then Raise (ValueError (greater_then_zero_msg "unit_price"))
      else Ok tt
    else Raise (TypeError "unit_price" TInt v).
Proof.
  unfold validate, unit_price_field, and_, instance_of, positive_number.
  cbn [fst snd Attribute.name bind].
  destruct (isinstance v TInt); [| reflexivity].
  cbn [bind]. destruct (py_le v (VInt 0)); reflexivity.
Qed.

Lemma validate_tax_percent self v :
  validate tax_percent_field self v =
    if isinstance v TFloat then
      if py_lt (VInt 0) v && py_lt v (VInt 1)
      then Ok tt
      else Raise (ValueError (between_0_and_1_msg "tax_percent"))
    else Raise (TypeError "tax_percent" TFloat v).
Proof.
  unfold validate, tax_percent_field, and_, instance_of, percentage_value.
  cbn [fst snd Attribute.name bind].
  destruct (isinstance v TFloat); [| reflexivity].
  cbn [bind]. destruct (py_lt (VInt 0) v && py_lt v (VInt 1)); reflexivity.
Qed.

(** [Product_init] as one decision over the three fields, in field order. *)
Lemma Product_init_unfold n c sw up tp :
  Product_init n c sw up tp =
    let self := mkProduct n c sw up tp in
    match validate shipping_weight_field self sw with
    | Raise e => Raise e
    | Ok _ =>
        match validate unit_price_field self up with
        | Raise e => Raise e
        | Ok _ =>
            match validate tax_percent_field self tp with
            | Raise e => Raise e
            | Ok _ => Ok self
            end
        end
    end.
Proof. reflexivity. Qed.

(** A product that was constructed satisfies the invariant of its class. *)
Lemma Product_init_valid n c sw up tp p :
  Product_init n c sw up tp = Ok p ->
  p = mkProduct n c sw up tp /\ valid_Product p.
Proof.
  rewrite Product_init_unfold. cbv zeta.
  rewrite validate_shipping_weight, validate_unit_price, validate_tax_percent.
  destruct (isinstance sw TFloat) eqn:Hsw; [| discriminate].
  destruct (py_le sw (VInt 0)) eqn:Hsw0; [discriminate |].
  destruct (isinstance up TInt) eqn:Hup; [| discriminate].
  destruct (py_le up (VInt 0)) eqn:Hup0; [discriminate |].
  destruct (isinstance tp TFloat) eqn:Htp; [| discriminate].
  destruct (py_lt (VInt 0) tp && py_lt tp (VInt 1)) eqn:Htp01; [| discriminate].
  intros [= <-]. split; [reflexivity |].
  apply andb_prop in Htp01 as [H0 H1].
  unfold valid_Product; cbn [shipping_weight unit_price tax_percent].
  destruct sw as [| |fw]; try discriminate.
  destruct tp as [| |ft]; try discriminate.
  repeat split; eauto.
Qed.

(** And every product that satisfies it can be constructed. *)
Lemma Product_init_complete p :
  valid_Product p ->
  Product_init (name p) (category p)
    (shipping_weight p) (unit_price p) (tax_percent p) = Ok p.
Proof.
  destruct p as [n c sw up tp]. unfold valid_Product.
  cbn [name category shipping_weight unit_price tax_percent].
  intros ((fw & -> & Hw) & Hup & Hup0 & (ft & -> & H0 & H1)).
  rewrite Product_init_unfold. cbv zeta.
  rewrite validate_shipping_weight, validate_unit_price, validate_tax_percent.
  rewrite Hup, Hup0, Hw, H0, H1. reflexivity.
Qed.

(** Every [ValueError] of a construction carries one of the three messages
    of the validators, which start with the class name and the name of the
    attribute. *)
Lemma Product_init_ValueError_message n c sw up tp msg :
  Product_init n c sw up tp = Raise (ValueError msg) ->
  msg = greater_then_zero_msg "shipping_weight"
  \/ msg = greater_then_zero_msg "unit_price"
  \/ msg = between_0_and_1_msg "tax_percent".
Proof.
  rewrite Product_init_unfold. cbv zeta.
  rewrite validate_shipping_weight, validate_unit_price, validate_tax_percent.
  destruct (isinstance sw TFloat); [| discriminate].
  destruct (py_le sw (VInt 0)); [intros [= <-]; auto |].
  destruct (isinstance up TInt); [| discriminate].
  destruct (py_le up (VInt 0)); [intros [= <-]; auto |].
  destruct (isinstance tp TFloat); [| discriminate].
  destruct (py_lt (VInt 0) tp && py_lt tp (VInt 1)); [discriminate |].
  intros [= <-]; auto.
Qed.

(** ** Construction of a [Product] *)

Lemma main_products_construct :
  Product_init "banana" "fruit"
    (VFloat (Float.dec 5 10)) (VInt 215) (VFloat (Float.dec 7 100)) = Ok banana
  /\ Product_init "mango" "fruit"
    (VFloat (Float.dec 20 10)) (VInt 319) (VFloat (Float.dec 11 100)) = Ok mango
  /\ Product_init "Mango" "Fruit"
    (VFloat (Float.dec 40 10)) (VInt 800) (VFloat (Float.dec 20 100))
     = Ok expensive_mango.
Proof. repeat split; vm_compute; reflexivity. Qed.

(** The two ways a construction stops: at a type check or at a range
    check. *)
Ltac raises_TypeError :=
  eexists; split; [reflexivity |]; split; [right; reflexivity |];
  intros; discriminate.
Ltac raises_ValueError :=
  eexists; split; [reflexivity |]; split; [left; reflexivity |];
  intros; reflexivity.

(** C1, as stated, fails: a [shipping_weight] of [0] given as an [int] is
    not positive, yet the construction does not fail with a [ValueError]:
    the type check in front of the range check raises [TypeError]. *)
Lemma C1_int_zero_weight_raises_TypeError :
  py_le (VInt 0) (VInt 0) = true
  /\ Product_init "mango" "fruit" (VInt 0) (VInt 319) (VFloat (Float.dec 11 100))
     = Raise (TypeError "shipping_weight" TFloat (VInt 0))
  /\ ~ (exists msg,
         Product_init "mango" "fruit" (VInt 0) (VInt 319)
           (VFloat (Float.dec 11 100)) = Raise (ValueError msg)).
Proof.
  split; [reflexivity |]. split; [reflexivity |].
  intros [msg H]. vm_compute in H. discriminate H.
Qed.

(** C1 (amended): when [shipping_weight <= 0], [unit_price <= 0] or
    [tax_percent] is not strictly between 0 and 1, the construction raises
    and no [Product] is returned or stored. The exception is a
    [ValueError] whenever the three numbers have the declared types
    ([float], [int], [float]); otherwise it is the [ValueError] or the
    [TypeError] of the first validator, in field order, that rejects its
    value. *)
Theorem C1_out_of_range_construction_fails n c sw up tp :
  py_le sw (VInt 0) = true \/ py_le up (VInt 0) = true
    \/ py_lt (VInt 0) tp && py_lt tp (VInt 1) = false ->
  exists e,
    Product_init n c sw up tp = Raise e
    /\ (forall h, Store.Product_new n c sw up tp h = Raise e)
    /\ (is_ValueError e = true \/ is_TypeError e = true)
    /\ (isinstance sw TFloat = true -> isinstance up TInt = true ->
        isinstance tp TFloat = true -> is_ValueError e = true).
Proof.
  intros Hrange.
  assert (exists e, Product_init n c sw up tp = Raise e
            /\ (is_ValueError e = true \/ is_TypeError e = true)
            /\ (isinstance sw TFloat = true -> isinstance up TInt = true ->
                isinstance tp TFloat = true -> is_ValueError e = true))
    as (e & He & Hkind & Htyped).
  { rewrite Product_init_unfold. cbv zeta.
    rewrite validate_shipping_weight, validate_unit_price, validate_tax_percent.
    destruct (isinstance sw TFloat) eqn:Hsw;
      [| raises_TypeError].
    destruct (py_le sw (VInt 0)) eqn:Hsw0;
      [raises_ValueError |].
    destruct (isinstance up TInt) eqn:Hup;
      [| raises_TypeError].
    destruct (py_le up (VInt 0)) eqn:Hup0;
      [raises_ValueError |].
    destruct (isinstance tp TFloat) eqn:Htp;
      [| raises_TypeError].
    destruct (py_lt (VInt 0) tp && py_lt tp (VInt 1)) eqn:Htp01;
      [| raises_ValueError].
    destruct Hrange as [H | [H | H]]; discriminate H. }
  exists e. repeat split; try assumption.
  intros h. unfold Store.Product_new. rewrite He. reflexivity.
Qed.

Lemma C1_out_of_range_construction_fails_witness :
  py_le (VFloat (Float.dec (-1) 1)) (VInt 0) = true
  /\ exists e,
      Product_init "mango" "fruit"
        (VFloat (Float.dec (-1) 1)) (VInt 319) (VFloat (Float.dec 11 100))
        = Raise e
      /\ (forall h, Store.Product_new "mango" "fruit"
            (VFloat (Float.dec (-1) 1)) (VInt 319) (VFloat (Float.dec 11 100)) h
            = Raise e)
      /\ is_ValueError e = true.
Proof.
  split; [reflexivity |].
  destruct (C1_out_of_range_construction_fails "mango" "fruit"
              (VFloat (Float.dec (-1) 1)) (VInt 319) (VFloat (Float.dec 11 100))
              (or_introl eq_refl)) as (e & He & Hnew & _ & Htyped).
  exists e. split; [exact He |]. split; [exact Hnew |].
  apply Htyped; reflexivity.
Defined.

(** C7: a non-positive [shipping_weight] of the declared type is rejected
    with a message that names the class and the attribute, but its wording
    is "greater then zero", not "greater than zero". *)
Theorem C7_shipping_weight_message :
  Product_init "mango" "fruit"
    (VFloat (Float.dec (-1) 1)) (VInt 319) (VFloat (Float.dec 11 100))
    = Raise (ValueError
        "Product shipping_weight attribute must be greater then zero.")
  /\ "Product shipping_weight attribute must be greater then zero."
     <> "Product shipping_weight attribute must be greater than zero.".
Proof. split; [vm_compute; reflexivity | discriminate]. Qed.

(** C10: the type check of a field runs before its range check. An [int]
    given as [shipping_weight] is refused with a [TypeError] whatever its
    value; a [float] given as [unit_price], or an [int] given as
    [tax_percent], makes the construction fail as well, with the
    [TypeError] of that field unless an earlier field already raised. *)
Theorem C10_type_checks_come_first :
  (forall n c z up tp,
     Product_init n c (VInt z) up tp
     = Raise (TypeError "shipping_weight" TFloat (VInt z)))
  /\ (forall n c sw f tp,
        Product_init n c sw (VFloat f) tp
        = Raise match validate shipping_weight_field
                        (mkProduct n c sw (VFloat f) tp) sw with
                | Raise e => e
                | Ok _ => TypeError "unit_price" TInt (VFloat f)
                end)
  /\ (forall n c sw up z,
        Product_init n c sw up (VInt z)
        = Raise match validate shipping_weight_field
                        (mkProduct n c sw up (VInt z)) sw with
                | Raise e => e
                | Ok _ =>
                    match validate unit_price_field
                            (mkProduct n c sw up (VInt z)) up with
                    | Raise e => e
                    | Ok _ => TypeError "tax_percent" TFloat (VInt z)
                    end
                end).
Proof.
  split; [| split].
  - intros. reflexivity.
  - intros. rewrite Product_init_unfold. cbv zeta.
    destruct (validate shipping_weight_field _ sw); reflexivity.
  - intros. rewrite Product_init_unfold. cbv zeta.
    destruct (validate shipping_weight_field _ sw); [| reflexivity].
    destruct (validate unit_price_field _ up); reflexivity.
Qed.

(** [isinstance] admits subclasses: a [bool] is accepted as [unit_price]. *)
Example bool_unit_price_is_accepted :
  Product_init "mango" "fruit"
    (VFloat (Float.dec 20 10)) (VBool true) (VFloat (Float.dec 11 100))
  = Ok (mkProduct "mango" "fruit"
          (VFloat (Float.dec 20 10)) (VBool true) (VFloat (Float.dec 11 100))).
Proof. vm_compute. reflexivity. Qed.

Example type_checks :
  Product_init "mango" "fruit" (VInt 2) (VInt 319) (VFloat (Float.dec 11 100))
    = Raise (TypeError "shipping_weight" TFloat (VInt 2))
  /\ Product_init "mango" "fruit"
       (VFloat (Float.dec 20 10)) (VFloat (Float.dec 3190 10))
       (VFloat (Float.dec 11 100))
     = Raise (TypeError "unit_price" TInt (VFloat (Float.dec 3190 10)))
  /\ Product_init "mango" "fruit" (VFloat (Float.dec 20 10)) (VInt 319) (VInt 0)
     = Raise (TypeError "tax_percent" TFloat (VInt 0)).
Proof. repeat split; vm_compute; reflexivity. Qed.

(** ** Equality of products *)








Example mango_eq_expensive_mango : Product_eq mango expensive_mango = true.
Proof. reflexivity. Qed.

Example banana_neq_mango : Product_eq banana mango = false.
Proof. reflexivity. Qed.

Example reading_utf8 :
  of_utf8 "Éclair" = Some Eclair
  /\ of_utf8 "éclair" = Some eclair
  /\ of_utf8 "Mango" = Some "Mango".
Proof. repeat split; reflexivity. Qed.

(** Accented letters have two cases as well; the sharp s (223) and the
    multiplication sign (215) have one. *)
Example Eclair_eq_eclair :
  str_lower Eclair = eclair
  /\ Product_eq (mkProduct Eclair "Dessert" (VFloat (Float.dec 5 10)) (VInt 215)
                   (VFloat (Float.dec 7 100)))
                (mkProduct eclair "dessert" (VFloat (Float.dec 20 10)) (VInt 319)
                   (VFloat (Float.dec 11 100))) = true
  /\ str_lower (String "223" (String "215" "")) = String "223" (String "215" "").
Proof. repeat split; reflexivity. Qed.


(** ** Totals of an order *)

Lemma py_add_ints a b :
  isinstance a TInt = true -> isinstance b TInt = true ->
  py_add a b = Ok (VInt (int_value a + int_value b)).
Proof. destruct a, b; intros Ha Hb; try discriminate; reflexivity. Qed.

(** Integers add up exactly. *)
Lemma sum_from_ints (vs : list pyval) a :
  Forall (fun v => isinstance v TInt = true) vs ->
  sum_from (VInt a) (map Ok vs) = Ok (VInt (a + Z_sum (map int_value vs))).
Proof.
  intros H. revert a. induction H as [| v vs Hv _ IH]; intros a.
  - cbn. now rewrite Z.add_0_r.
  - cbn [map sum_from bind]. rewrite (py_add_ints (VInt a) v eq_refl Hv).
    cbn [bind int_value]. rewrite IH. cbn [Z_sum fold_right].
    now rewrite Z.add_assoc.
Qed.

Lemma valid_unit_price_int p :
  valid_Product p -> isinstance (unit_price p) TInt = true.
Proof. intros (_ & H & _). exact H. Qed.

(** A tax term of a valid product in range is a float. *)
Lemma tax_term_float p :
  valid_Product p -> in_float_range (int_value (unit_price p)) ->
  exists f, py_mul (unit_price p) (tax_percent p) = Ok (VFloat f).
Proof.
  intros (_ & Hint & _ & (t & Ht & _)) [f Hf]. rewrite Ht.
  destruct (unit_price p) as [z | b | g]; try discriminate Hint;
    cbn in Hf; unfold py_mul, arith; rewrite Hf; cbn; eauto.
Qed.

(** Floats added to [0] or to a float give a float: no exception. *)
Lemma sum_from_floats (items : list (result pyval)) acc :
  acc = VInt 0 \/ (exists f, acc = VFloat f) ->
  Forall (fun item => exists f, item = Ok (VFloat f)) items ->
  exists v, sum_from acc items = Ok v /\ (v = VInt 0 \/ exists f, v = VFloat f).
Proof.
  intros Hacc H. revert acc Hacc.
  induction H as [| item items [x ->] _ IH]; intros acc Hacc.
  - exists acc. split; [reflexivity | exact Hacc].
  - cbn [sum_from bind].
    assert (exists g, py_add acc (VFloat x) = Ok (VFloat g)) as [g ->].
    { destruct Hacc as [-> | [f ->]]; cbn; eauto. }
    cbn [bind]. apply IH. right. eauto.
Qed.

Lemma main_products_valid :
  valid_Product banana /\ valid_Product mango /\ valid_Product expensive_mango.
Proof.
  repeat split; try reflexivity; eexists; repeat split; reflexivity.
Qed.

(** The objects an empty order returns: the [int] [0] each time, the
    start value of [sum]. *)
Lemma empty_order_totals (self : Order) :
  products self = [] ->
  calculate_sub_total self = Ok (VInt 0)
  /\ calculate_tax self = Ok (VInt 0)
  /\ calculate_total self = Ok (VInt 0)
  /\ total_weight self = Ok (VInt 0).
Proof.
  intros H. unfold calculate_total, calculate_sub_total, calculate_tax, total_weight.
  rewrite H. repeat split; reflexivity.
Qed.

(** C4, as stated, fails: the tax, the total and the weight of an order
    without products are not the float [0.0]; each is the [int] [0]. *)
Lemma C4_empty_order_returns_no_float :
  products (openned new_year) = []
  /\ calculate_tax (openned new_year) = Ok (VInt 0)
  /\ calculate_tax (openned new_year) <> Ok (VFloat Float.zero)
  /\ calculate_total (openned new_year) <> Ok (VFloat Float.zero)
  /\ total_weight (openned new_year) <> Ok (VFloat Float.zero).
Proof. repeat split; discriminate. Qed.

(** C4 (amended): on an order without products [calculate_sub_total()],
    [calculate_tax()], [calculate_total()] and [total_weight] all return
    the [int] [0], the start value of [sum]; it is equal to [0.0] for [==]
    but it is not a float. *)
Theorem C4_empty_order_returns_int_zero (self : Order) :
  products self = [] ->
  calculate_sub_total self = Ok (VInt 0)
  /\ calculate_tax self = Ok (VInt 0)
  /\ calculate_total self = Ok (VInt 0)
  /\ total_weight self = Ok (VInt 0)
  /\ py_eq (VInt 0) (VFloat Float.zero) = true
  /\ VInt 0 <> VFloat Float.zero.
Proof.
  intros H. destruct (empty_order_totals self H) as (-> & -> & -> & ->).
  repeat split. discriminate.
Qed.

Lemma C4_empty_order_returns_int_zero_witness :
  products (openned new_year) = []
  /\ calculate_sub_total (openned new_year) = Ok (VInt 0)
  /\ calculate_tax (openned new_year) = Ok (VInt 0)
  /\ calculate_total (openned new_year) = Ok (VInt 0)
  /\ total_weight (openned new_year) = Ok (VInt 0)
  /\ py_eq (VInt 0) (VFloat Float.zero) = true
  /\ VInt 0 <> VFloat Float.zero.
Proof.
  split; [reflexivity | apply C4_empty_order_returns_int_zero; reflexivity].
Defined.

(** ** Adding items *)

Lemma products_add_item (self : Order) (product : Product) :
  products (add_item self product) = (products self ++ [product])%list.
Proof. reflexivity. Qed.

Lemma products_fold_add_item (ps : list Product) (self : Order) :
  products (fold_left add_item ps self) = (products self ++ ps)%list.
Proof.
  revert self. induction ps as [| p ps IH]; intros self; cbn [fold_left].
  - now rewrite app_nil_r.
  - rewrite IH, products_add_item, <- app_assoc. reflexivity.
Qed.

(** C5: every call of [add_item] puts its product at the end and keeps
    what was there; on an order that starts empty, the calls for
    [p1 ... pn] in this order leave exactly the sequence [p1 ... pn], of
    length [n]. *)
Theorem C5_add_item_appends (self : Order) (ps : list Product) :
  products self = [] ->
  (forall (o : Order) (p : Product), products (add_item o p) = (products o ++ [p])%list)
  /\ products (fold_left add_item ps self) = ps
  /\ length (products (fold_left add_item ps self)) = length ps
  /\ (forall i, products (fold_left add_item ps self) !! i = ps !! i).
Proof.
  intros Hempty.
  assert (products (fold_left add_item ps self) = ps) as ->.
  { now rewrite products_fold_add_item, Hempty. }
  repeat split.
Qed.

Lemma C5_add_item_appends_witness :
  products (openned new_year) = []
  /\ (forall (o : Order) (p : Product), products (add_item o p) = (products o ++ [p])%list)
  /\ products (fold_left add_item [banana; mango; expensive_mango] (openned new_year))
     = [banana; mango; expensive_mango]
  /\ length (products (fold_left add_item [banana; mango; expensive_mango]
                         (openned new_year)))
     = length [banana; mango; expensive_mango]
  /\ (forall i,
        products (fold_left add_item [banana; mango; expensive_mango]
                    (openned new_year)) !! i
        = [banana; mango; expensive_mango] !! i).
Proof.
  split; [reflexivity | apply C5_add_item_appends; reflexivity].
Defined.

(** ** The scenario of two products *)

Example tax_terms :
  py_mul (VInt 215) (VFloat (Float.dec 7 100)) = Ok (VFloat (Float.dec 1505 100))
  /\ py_mul (VInt 319) (VFloat (Float.dec 11 100)) = Ok (VFloat (Float.dec 3509 100)).
Proof. split; vm_compute; reflexivity. Qed.

(** C9: with the banana (215, 0.07, 0.5) and the mango (319, 0.11, 2.0)
    and nothing else, the sub total is 534, the tax is the double 50.14,
    the total the double 584.14 and the weight 2.5. *)
Theorem C9_banana_and_mango (self : Order) (b m : Product) :
  products self = [b; m] ->
  unit_price b = VInt 215 -> tax_percent b = VFloat (Float.dec 7 100) ->
  shipping_weight b = VFloat (Float.dec 5 10) ->
  unit_price m = VInt 319 -> tax_percent m = VFloat (Float.dec 11 100) ->
  shipping_weight m = VFloat (Float.dec 20 10) ->
  calculate_sub_total self = Ok (VInt 534)
  /\ calculate_tax self = Ok (VFloat (Float.dec 5014 100))
  /\ calculate_total self = Ok (VFloat (Float.dec 58414 100))
  /\ total_weight self = Ok (VFloat (Float.dec 25 10)).
Proof.
  intros Hps Hbu Hbt Hbw Hmu Hmt Hmw.
  unfold calculate_total, calculate_sub_total, calculate_tax, total_weight.
  rewrite Hps. cbn [map]. rewrite Hbu, Hbt, Hbw, Hmu, Hmt, Hmw.
  repeat split; vm_compute; reflexivity.
Qed.

Lemma C9_banana_and_mango_witness :
  products (order_of_two new_year) = [banana; mango]
  /\ calculate_sub_total (order_of_two new_year) = Ok (VInt 534)
  /\ calculate_tax (order_of_two new_year) = Ok (VFloat (Float.dec 5014 100))
  /\ calculate_total (order_of_two new_year) = Ok (VFloat (Float.dec 58414 100))
  /\ total_weight (order_of_two new_year) = Ok (VFloat (Float.dec 25 10)).
Proof.
  split; [reflexivity |].
  apply (C9_banana_and_mango (order_of_two new_year) banana mango);
    reflexivity.
Defined.

(** ** The default of [creation_date] *)

(** C6: an order constructed without [creation_date] carries the date on
    which the class statement ran, whatever the date of the call. With the
    class defined on 2024-01-01 and the call made on 2024-01-02, the
    order is dated 2024-01-01. *)
Theorem C6_default_is_definition_date :
  (forall today now status products,
     creation_date (Order_init (define_Order today) now status None products)
     = today)
  /\ creation_date (Order_init (define_Order new_year) day_after "openned" None None)
     = new_year
  /\ new_year <> day_after.
Proof. repeat split. discriminate. Qed.

(** ** References: what an order shares and what it owns *)

(** C8, as stated, fails. A list passed as [products=] stays shared: an
    append through the caller's name shows in the order. And [add_item]
    keeps the caller's object, not a copy: a later assignment to the
    product's [unit_price] changes the order's sub total. *)
Lemma C8_aliases_reach_the_order :
  (exists before after,
     shared_list_run = Some (before, after)
     /\ products before = [] /\ products after = [banana]
     /\ calculate_sub_total before = Ok (VInt 0)
     /\ calculate_sub_total after = Ok (VInt 215))
  /\ (exists before after,
        repriced_run = Some (before, after)
        /\ products before = [banana]
        /\ calculate_sub_total before = Ok (VInt 215)
        /\ calculate_sub_total after = Ok (VInt 800)).
Proof.
  split.
  - eexists _, _. split; [vm_compute; reflexivity |].
    repeat split; vm_compute; reflexivity.
  - eexists _, _. split; [vm_compute; reflexivity |].
    repeat split; vm_compute; reflexivity.
Qed.

Section store.
Implicit Types (h : gmap Store.loc Store.object) (l o p : Store.loc).

Lemma alloc_spec ob h l h' :
  Store.alloc ob h = (l, h') -> h !! l = None /\ h' = <[l := ob]> h.
Proof.
  unfold Store.alloc. intros [= <- <-]. split; [| reflexivity].
  apply not_elem_of_dom, is_fresh.
Qed.

(** An order made without [products]: two new objects, the list and the
    order, and nothing else touched. *)
Lemma Order_new_default cls now st d h o h1 :
  Store.Order_new cls now st d None h = (o, h1) ->
  exists l,
    h !! l = None /\ h !! o = None /\ l <> o
    /\ h1 = <[o := Store.OOrder st (default (creation_date_default cls) d) l]>
              (<[l := Store.OList []]> h).
Proof.
  unfold Store.Order_new.
  destruct (Store.alloc (Store.OList []) h) as [l h0] eqn:Hl.
  apply alloc_spec in Hl as [Hl ->].
  intros Ho. apply alloc_spec in Ho as [Ho ->].
  exists l. split; [exact Hl |].
  assert (l <> o) by (intros ->; by rewrite lookup_insert_eq in Ho).
  split; [| split; [assumption | reflexivity]].
  by rewrite lookup_insert_ne in Ho.
Qed.

Lemma product_refs_Some h o items :
  Store.product_refs h o = Some items <->
  exists st d l, h !! o = Some (Store.OOrder st d l) /\ h !! l = Some (Store.OList items).
Proof.
  unfold Store.product_refs. split.
  - destruct (h !! o) as [[| |st d l] |] eqn:Ho; try discriminate.
    destruct (h !! l) as [[| its |] |] eqn:Hl; try discriminate.
    intros [= ->]. eauto.
  - intros (st & d & l & -> & ->). reflexivity.
Qed.

(** [Store.add_item] on an order with a list succeeds and puts the reference
    it was given at the end of that list. *)
Lemma add_item_spec h o p st d l items :
  h !! o = Some (Store.OOrder st d l) -> h !! l = Some (Store.OList items) ->
  Store.add_item o p h = Some (<[l := Store.OList (items ++ [p])]> h).
Proof. intros Ho Hl. unfold Store.add_item, Store.list_append. by rewrite Ho, Hl. Qed.

Lemma get_product_insert_list h l items items' x :
  h !! l = Some (Store.OList items) ->
  Store.get_product (<[l := Store.OList items']> h) x = Store.get_product h x.
Proof.
  intros Hl. unfold Store.get_product.
  destruct (decide (l = x)) as [<- | Hne].
  - by rewrite lookup_insert_eq, Hl.
  - by rewrite lookup_insert_ne.
Qed.

(** The method on the state of an order is what the method on the store
    does, seen through the references. *)
Lemma add_item_view h o p h' ov pv :
  Store.view h o = Some ov -> Store.get_product h p = Some pv ->
  Store.add_item o p h = Some h' ->
  Store.view h' o = Some (add_item ov pv).
Proof.
  unfold Store.view. intros Hv Hp Hadd.
  destruct (h !! o) as [[| |st d l] |] eqn:Ho; try discriminate.
  destruct (Store.product_refs h o) as [items |] eqn:Hrefs; [| discriminate].
  cbn in Hv.
  destruct (mapM (Store.get_product h) items) as [ps |] eqn:Hps; [| discriminate].
  cbn in Hv. injection Hv as <-.
  apply product_refs_Some in Hrefs as (st' & d' & l' & Ho' & Hl).
  rewrite Ho in Ho'. injection Ho' as <- <- <-.
  rewrite (add_item_spec h o p st d l items Ho Hl) in Hadd.
  injection Hadd as <-.
  assert (l <> o) as Hlo by (intros ->; congruence).
  rewrite lookup_insert_ne, Ho by exact Hlo.
  rewrite (proj2 (product_refs_Some _ o (items ++ [p]))); cycle 1.
  { exists st, d, l. by rewrite lookup_insert_ne, lookup_insert_eq. }
  cbn.
  rewrite (mapM_ext _ (Store.get_product h)); cycle 1.
  { intros x. by eapply get_product_insert_list. }
  rewrite (mapM_Some_2 (Store.get_product h) (items ++ [p]) (ps ++ [pv])).
  - reflexivity.
  - apply Forall2_app; [by apply mapM_Some_1 | by constructor].
Qed.

(** C8 (amended): an order constructed without [products] has a list
    of its own. The list is a new, empty Store.object; [Store.add_item] on the order
    succeeds and puts the very reference it was given at the end of this
    list, without touching the list of any order that existed before;
    and [Store.add_item] on an order that existed before does not reach the
    new order's list. *)
Theorem C8_default_list_is_not_shared cls now st d h o h1 :
  Store.Order_new cls now st d None h = (o, h1) ->
  Store.product_refs h o = None
  /\ Store.product_refs h1 o = Some []
  /\ (forall p, exists h2,
        Store.add_item o p h1 = Some h2
        /\ Store.product_refs h2 o = Some [p]
        /\ forall o2, is_Some (Store.product_refs h o2) ->
             Store.product_refs h2 o2 = Store.product_refs h o2)
  /\ (forall o2 p, is_Some (Store.product_refs h o2) ->
        exists h2,
          Store.add_item o2 p h1 = Some h2
          /\ Store.product_refs h2 o = Some []
          /\ Store.product_refs h2 o2 = (.++ [p]) <$> Store.product_refs h o2).
Proof.
  intros Hnew.
  apply Order_new_default in Hnew as (l & Hl & Ho & Hlo & ->).
  set (ord := Store.OOrder st (default (creation_date_default cls) d) l).
  assert (forall o2 items, Store.product_refs h o2 = Some items ->
            exists st2 d2 l2,
              h !! o2 = Some (Store.OOrder st2 d2 l2) /\ h !! l2 = Some (Store.OList items)
              /\ o2 <> o /\ o2 <> l /\ l2 <> o /\ l2 <> l /\ l2 <> o2) as Hold.
  { intros o2 items (st2 & d2 & l2 & Ho2 & Hl2)%product_refs_Some.
    exists st2, d2, l2. repeat split; try assumption; intros ->; congruence. }
  split; [| split; [| split]].
  - unfold Store.product_refs. by rewrite Ho.
  - apply product_refs_Some. exists st, (default (creation_date_default cls) d), l.
    split; [by rewrite lookup_insert_eq |].
    by rewrite lookup_insert_ne, lookup_insert_eq.
  - intros p. eexists. split; [| split].
    + apply (add_item_spec _ o p st (default (creation_date_default cls) d) l []).
      * by rewrite lookup_insert_eq.
      * by rewrite lookup_insert_ne, lookup_insert_eq.
    + apply product_refs_Some.
      exists st, (default (creation_date_default cls) d), l. split.
      * by rewrite lookup_insert_ne, lookup_insert_eq.
      * by rewrite lookup_insert_eq.
    + intros o2 [items Hitems]. rewrite Hitems.
      destruct (Hold o2 items Hitems) as (st2 & d2 & l2 & Ho2 & Hl2 & ? & ? & ? & ? & ?).
      apply product_refs_Some. exists st2, d2, l2.
      by rewrite !lookup_insert_ne.
  - intros o2 p [items Hitems]. rewrite Hitems.
    destruct (Hold o2 items Hitems) as (st2 & d2 & l2 & Ho2 & Hl2 & ? & ? & ? & ? & ?).
    eexists. split; [| split].
    + apply (add_item_spec _ o2 p st2 d2 l2 items); by rewrite !lookup_insert_ne.
    + apply product_refs_Some.
      exists st, (default (creation_date_default cls) d), l. split.
      * by rewrite lookup_insert_ne, lookup_insert_eq.
      * do 2 (rewrite lookup_insert_ne by done). by rewrite lookup_insert_eq.
    + cbn. apply product_refs_Some. exists st2, d2, l2. split.
      * by rewrite !lookup_insert_ne.
      * by rewrite lookup_insert_eq.
Qed.

Lemma C8_default_list_is_not_shared_witness :
  Store.Order_new (define_Order new_year) day_after "paid" None None busy_run.2
    = (second_order_run.1, second_order_run.2)
  /\ Store.product_refs busy_run.2 busy_run.1.1 = Some [busy_run.1.2]
  /\ Store.product_refs busy_run.2 second_order_run.1 = None
  /\ Store.product_refs second_order_run.2 second_order_run.1 = Some []
  /\ (exists h2,
        Store.add_item second_order_run.1 busy_run.1.2 second_order_run.2 = Some h2
        /\ Store.product_refs h2 second_order_run.1 = Some [busy_run.1.2]
        /\ Store.product_refs h2 busy_run.1.1 = Some [busy_run.1.2])
  /\ (exists h2,
        Store.add_item busy_run.1.1 busy_run.1.2 second_order_run.2 = Some h2
        /\ Store.product_refs h2 second_order_run.1 = Some []
        /\ Store.product_refs h2 busy_run.1.1
           = Some [busy_run.1.2; busy_run.1.2]).
Proof.
  assert (Store.Order_new (define_Order new_year) day_after "paid" None None
            busy_run.2 = (second_order_run.1, second_order_run.2)) as Hnew
    by reflexivity.
  assert (Store.product_refs busy_run.2 busy_run.1.1 = Some [busy_run.1.2]) as Hold
    by (vm_compute; reflexivity).
  destruct (C8_default_list_is_not_shared _ _ _ _ _ _ _ Hnew)
    as (Hfresh & Hempty & Hown & Hother).
  split; [exact Hnew |]. split; [exact Hold |].
  split; [exact Hfresh |]. split; [exact Hempty |]. split.
  - destruct (Hown busy_run.1.2) as (h2 & Hadd & Hrefs & Hframe).
    exists h2. split; [exact Hadd |]. split; [exact Hrefs |].
    rewrite (Hframe busy_run.1.1) by (rewrite Hold; eauto). exact Hold.
  - destruct (Hother busy_run.1.1 busy_run.1.2) as (h2 & Hadd & Hrefs & Hlist);
      [rewrite Hold; eauto |].
    exists h2. split; [exact Hadd |]. split; [exact Hrefs |].
    rewrite Hlist, Hold. reflexivity.
Defined.

End store.

(** * Further properties *)

(** ** What a construction accepts *)

(** X1: a construction returns a product exactly when the product is made
    of the five arguments and these satisfy the invariant of the class:
    the validators accept all valid arguments and nothing else. *)
Theorem X1_construction_accepts_exactly_the_valid n c sw up tp p :
  Product_init n c sw up tp = Ok p
  <-> p = mkProduct n c sw up tp /\ valid_Product p.
Proof.
  split.
  - apply Product_init_valid.
  - intros [-> Hvalid]. exact (Product_init_complete _ Hvalid).
Qed.

Lemma py_le_0_int z : py_le (VInt z) (VInt 0) = false <-> 1 <= z.
Proof.
  unfold py_le, py_compare. destruct (Z.compare_spec z 0); split; intros; try lia; try discriminate; reflexivity.
Qed.

Lemma finite_negative_compare s m e z :
  0 <= z -> s = true ->
  Float.compare_Z (S754_finite s m e) z = Some Lt.
Proof.
  intros Hz ->. unfold Float.compare_Z. f_equal.
  destruct (0 <=? e) eqn:He; apply Z.compare_lt_iff.
  - apply Z.leb_le in He.
    assert (0 < 2 ^ e) as Hpow by (apply Z.pow_pos_nonneg; lia). nia.
  - apply Z.leb_gt in He.
    assert (0 < 2 ^ (- e)) as Hpow by (apply Z.pow_pos_nonneg; lia). nia.
Qed.

(** The floats [positive_number] lets through. *)
Lemma py_le_0_float f :
  py_le (VFloat f) (VInt 0) = false <-> f = S754_nan \/ float_positive f.
Proof.
  unfold float_positive. destruct f as [s | s | | s m e].
  - split; [discriminate | intros [H | [H | (? & ? & H)]]; discriminate H].
  - destruct s; split; try discriminate; auto.
    intros [H | [H | (? & ? & H)]]; discriminate H.
  - split; auto.
  - destruct s.
    + unfold py_le, py_compare.
      rewrite (finite_negative_compare true m e 0) by (lia || reflexivity).
      split; [discriminate | intros [H | [H | (? & ? & H)]]; discriminate H].
    + split; [eauto |]. intros _. unfold py_le, py_compare, Float.compare_Z.
      assert (0 < Z.pos m) as Hm by lia.
      destruct (0 <=? e) eqn:He.
      * apply Z.leb_le in He.
        assert (0 < 2 ^ e) as Hpow by (apply Z.pow_pos_nonneg; lia).
        assert ((Z.pos m * 2 ^ e ?= 0) = Gt) as -> by (apply Z.compare_gt_iff; nia).
        reflexivity.
      * reflexivity.
Qed.

(** The floats [percentage_value] lets through: the finite positive ones
    whose exact value [m * 2^e] is below one. *)
Lemma py_between_0_1_float f :
  py_lt (VInt 0) (VFloat f) && py_lt (VFloat f) (VInt 1) = true
  <-> exists m e, f = S754_finite false m e /\ e < 0 /\ Z.pos m < 2 ^ (- e).
Proof.
  rewrite andb_true_iff. destruct f as [s | s | | s m e].
  - split; [intros [H _]; discriminate H | intros (? & ? & H & _); discriminate H].
  - split; [| intros (? & ? & H & _); discriminate H].
    destruct s; intros [H1 H2]; discriminate.
  - split; [intros [H _]; discriminate H | intros (? & ? & H & _); discriminate H].
  - destruct s.
    + split; [| intros (? & ? & H & _); discriminate H].
      intros [H _]. unfold py_lt, py_compare in H. cbn [fmap option_fmap option_map] in H.
      rewrite (finite_negative_compare true m e 0) in H by (lia || reflexivity).
      discriminate H.
    + unfold py_lt, py_compare, Float.compare_Z.
      cbn [fmap option_fmap option_map].
      destruct (0 <=? e) eqn:He.
      * apply Z.leb_le in He.
        assert (0 < 2 ^ e) as Hpow by (apply Z.pow_pos_nonneg; lia).
        split.
        -- intros [_ H].
           destruct (Z.compare_spec (Z.pos m * 2 ^ e) 1); try discriminate H. nia.
        -- intros (m' & e' & [= <- <-] & ? & _). lia.
      * apply Z.leb_gt in He. rewrite Z.mul_0_l, Z.mul_1_l. split.
        -- intros [_ H]. exists m, e. split; [reflexivity |]. split; [lia |].
           destruct (Z.compare_spec (Z.pos m) (2 ^ (- e))); try discriminate H.
           assumption.
        -- intros (m' & e' & [= <- <-] & _ & Hlt). split; [reflexivity |].
           apply Z.compare_lt_iff in Hlt. now rewrite Hlt.
Qed.

(** X2: what a constructed product holds. Its [unit_price] is an integer
    of at least 1; its [tax_percent] is a finite float whose exact value
    [m * 2^e] lies strictly between 0 and 1; its [shipping_weight] is a
    float that is above zero (possibly the infinity) or is a NaN: the
    comparison [value <= 0] is false on a NaN, so a NaN passes. *)
Theorem X2_constructed_product_fields n c sw up tp p :
  Product_init n c sw up tp = Ok p ->
  (isinstance (unit_price p) TInt = true /\ 1 <= int_value (unit_price p))
  /\ (exists m e, tax_percent p = VFloat (S754_finite false m e)
        /\ e < 0 /\ Z.pos m < 2 ^ (- e))
  /\ (exists f, shipping_weight p = VFloat f /\ (f = S754_nan \/ float_positive f)).
Proof.
  intros H. apply Product_init_valid in H as [_ Hvalid].
  destruct Hvalid as ((fw & -> & Hw) & Hint & Hup & (ft & -> & H0 & H1)).
  split; [| split].
  - split; [exact Hint |].
    destruct (unit_price p) as [z | [] | g]; try discriminate Hint.
    + now apply py_le_0_int.
    + cbn. lia.
    + discriminate Hup.
  - assert (py_lt (VInt 0) (VFloat ft) && py_lt (VFloat ft) (VInt 1) = true) as Hb
      by (now rewrite H0, H1).
    apply py_between_0_1_float in Hb as (m & e & -> & ? & ?). eauto.
  - exists fw. split; [reflexivity |]. now apply py_le_0_float.
Qed.

Lemma X2_constructed_product_fields_witness :
  Product_init "banana" "fruit"
    (VFloat (Float.dec 5 10)) (VInt 215) (VFloat (Float.dec 7 100)) = Ok banana
  /\ (isinstance (unit_price banana) TInt = true
      /\ 1 <= int_value (unit_price banana))
  /\ (exists m e, tax_percent banana = VFloat (S754_finite false m e)
        /\ e < 0 /\ Z.pos m < 2 ^ (- e))
  /\ (exists f, shipping_weight banana = VFloat f
        /\ (f = S754_nan \/ float_positive f)).
Proof.
  split; [vm_compute; reflexivity |].
  apply (X2_constructed_product_fields "banana" "fruit"
           (VFloat (Float.dec 5 10)) (VInt 215) (VFloat (Float.dec 7 100))).
  vm_compute; reflexivity.
Defined.

(** X3: the positivity check does not keep a NaN out. With an accepted
    [unit_price] and [tax_percent], a [shipping_weight] that is a NaN is
    accepted, and so is the positive infinity, while zero of either sign
    and the negative infinity are refused with the message of
    [positive_number]. *)
Theorem X3_nan_weight_is_accepted n c up tp :
  isinstance up TInt = true -> py_le up (VInt 0) = false ->
  isinstance tp TFloat = true ->
  py_lt (VInt 0) tp && py_lt tp (VInt 1) = true ->
  Product_init n c (VFloat S754_nan) up tp
    = Ok (mkProduct n c (VFloat S754_nan) up tp)
  /\ Product_init n c (VFloat (S754_infinity false)) up tp
     = Ok (mkProduct n c (VFloat (S754_infinity false)) up tp)
  /\ (forall s, Product_init n c (VFloat (S754_zero s)) up tp
        = Raise (ValueError (greater_then_zero_msg "shipping_weight")))
  /\ Product_init n c (VFloat (S754_infinity true)) up tp
     = Raise (ValueError (greater_then_zero_msg "shipping_weight")).
Proof.
  intros Hup Hup0 Htp Htp01.
  split; [| split; [| split; [intros s |]]];
    rewrite Product_init_unfold; cbv zeta;
    rewrite validate_shipping_weight, validate_unit_price, validate_tax_percent;
    rewrite Hup, Hup0, Htp, Htp01; try destruct s; reflexivity.
Qed.

Lemma X3_nan_weight_is_accepted_witness :
  Product_init "mango" "fruit" (VFloat S754_nan) (VInt 319) (VFloat (Float.dec 11 100))
    = Ok (mkProduct "mango" "fruit" (VFloat S754_nan) (VInt 319)
            (VFloat (Float.dec 11 100)))
  /\ Product_init "mango" "fruit" (VFloat (S754_infinity false)) (VInt 319)
       (VFloat (Float.dec 11 100))
     = Ok (mkProduct "mango" "fruit" (VFloat (S754_infinity false)) (VInt 319)
             (VFloat (Float.dec 11 100)))
  /\ (forall s, Product_init "mango" "fruit" (VFloat (S754_zero s)) (VInt 319)
                  (VFloat (Float.dec 11 100))
        = Raise (ValueError (greater_then_zero_msg "shipping_weight")))
  /\ Product_init "mango" "fruit" (VFloat (S754_infinity true)) (VInt 319)
       (VFloat (Float.dec 11 100))
     = Raise (ValueError (greater_then_zero_msg "shipping_weight")).
Proof.
  apply (X3_nan_weight_is_accepted "mango" "fruit" (VInt 319)
           (VFloat (Float.dec 11 100))); vm_compute; reflexivity.
Defined.

(** ** How a construction fails *)

(** X4: a construction that fails raises one of six exceptions: for each
    of the three validated fields, in this order, the [TypeError] of the
    type check carrying the field's name, the expected type and the value
    refused, or the [ValueError] of the range check whose message starts
    with [Product] and the field's name. No other exception, and never an
    [OverflowError], however large the numbers. *)
Theorem X4_construction_errors n c sw up tp e :
  Product_init n c sw up tp = Raise e ->
  e ∈ construction_errors sw up tp
  /\ e <> OverflowError
  /\ (forall msg, e = ValueError msg ->
        exists attribute rest,
          attribute ∈ ["shipping_weight"; "unit_price"; "tax_percent"]
          /\ msg = "Product " +:+ attribute +:+ " attribute must be " +:+ rest).
Proof.
  intros H.
  assert (e ∈ construction_errors sw up tp) as Hin.
  { revert H. rewrite Product_init_unfold. cbv zeta.
    rewrite validate_shipping_weight, validate_unit_price, validate_tax_percent.
    unfold construction_errors.
    destruct (isinstance sw TFloat); [| intros [= <-]; set_solver].
    destruct (py_le sw (VInt 0)); [intros [= <-]; set_solver |].
    destruct (isinstance up TInt); [| intros [= <-]; set_solver].
    destruct (py_le up (VInt 0)); [intros [= <-]; set_solver |].
    destruct (isinstance tp TFloat); [| intros [= <-]; set_solver].
    destruct (py_lt (VInt 0) tp && py_lt tp (VInt 1)); [discriminate |].
    intros [= <-]; set_solver. }
  split; [exact Hin |]. unfold construction_errors in Hin.
  repeat (apply elem_of_cons in Hin as [-> | Hin]);
    try (apply elem_of_nil in Hin; destruct Hin).
  - split; [discriminate | discriminate].
  - split; [discriminate |]. intros msg [= <-].
    exists "shipping_weight", "greater then zero.". split; [set_solver | reflexivity].
  - split; [discriminate | discriminate].
  - split; [discriminate |]. intros msg [= <-].
    exists "unit_price", "greater then zero.". split; [set_solver | reflexivity].
  - split; [discriminate | discriminate].
  - split; [discriminate |]. intros msg [= <-].
    exists "tax_percent", "between 0 and 1.". split; [set_solver | reflexivity].
Qed.

Lemma X4_construction_errors_witness :
  Product_init "mango" "fruit" (VFloat (Float.dec 20 10)) (VInt 0)
    (VFloat (Float.dec 11 100))
    = Raise (ValueError (greater_then_zero_msg "unit_price"))
  /\ ValueError (greater_then_zero_msg "unit_price")
       ∈ construction_errors (VFloat (Float.dec 20 10)) (VInt 0)
           (VFloat (Float.dec 11 100))
  /\ ValueError (greater_then_zero_msg "unit_price") <> OverflowError
  /\ (forall msg, ValueError (greater_then_zero_msg "unit_price") = ValueError msg ->
        exists attribute rest,
          attribute ∈ ["shipping_weight"; "unit_price"; "tax_percent"]
          /\ msg = "Product " +:+ attribute +:+ " attribute must be " +:+ rest).
Proof.
  split; [vm_compute; reflexivity |].
  apply (X4_construction_errors "mango" "fruit" (VFloat (Float.dec 20 10)) (VInt 0)
           (VFloat (Float.dec 11 100))).
  vm_compute; reflexivity.
Defined.

(** X5: the fields are checked in the order [shipping_weight],
    [unit_price], [tax_percent], and the first refusal is the one
    reported. A refusal of [shipping_weight] comes out whatever the other
    arguments are; a refusal of [unit_price] comes out whatever
    [tax_percent] is; and [name] and [category] never change the outcome. *)
Theorem X5_first_refusal_is_reported n c sw up tp e :
  Product_init n c sw up tp = Raise e ->
  (e = TypeError "shipping_weight" TFloat sw
   \/ e = ValueError (greater_then_zero_msg "shipping_weight") ->
   forall n' c' up' tp', Product_init n' c' sw up' tp' = Raise e)
  /\ (e = TypeError "unit_price" TInt up
      \/ e = ValueError (greater_then_zero_msg "unit_price") ->
      forall n' c' tp', Product_init n' c' sw up tp' = Raise e)
  /\ (forall n' c', Product_init n' c' sw up tp = Raise e).
Proof.
  rewrite Product_init_unfold. cbv zeta.
  rewrite validate_shipping_weight, validate_unit_price, validate_tax_percent.
  destruct (isinstance sw TFloat) eqn:Hsw; cycle 1.
  { intros [= <-]. repeat split; try (intros [H | H]; discriminate H); intros;
      rewrite Product_init_unfold; cbv zeta;
      rewrite validate_shipping_weight, Hsw; reflexivity. }
  destruct (py_le sw (VInt 0)) eqn:Hsw0.
  { intros [= <-]. repeat split; try (intros [H | H]; discriminate H); intros;
      rewrite Product_init_unfold; cbv zeta;
      rewrite validate_shipping_weight, Hsw, Hsw0; reflexivity. }
  destruct (isinstance up TInt) eqn:Hup; cycle 1.
  { intros [= <-]. repeat split; try (intros [H | H]; discriminate H); intros;
      rewrite Product_init_unfold; cbv zeta;
      rewrite validate_shipping_weight, validate_unit_price, Hsw, Hsw0, Hup;
      reflexivity. }
  destruct (py_le up (VInt 0)) eqn:Hup0.
  { intros [= <-]. repeat split; try (intros [H | H]; discriminate H); intros;
      rewrite Product_init_unfold; cbv zeta;
      rewrite validate_shipping_weight, validate_unit_price, Hsw, Hsw0, Hup, Hup0;
      reflexivity. }
  destruct (isinstance tp TFloat) eqn:Htp; cycle 1.
  { intros [= <-]. repeat split; try (intros [H | H]; discriminate H); intros;
      rewrite Product_init_unfold; cbv zeta;
      rewrite validate_shipping_weight, validate_unit_price, validate_tax_percent,
        Hsw, Hsw0, Hup, Hup0, Htp; reflexivity. }
  destruct (py_lt (VInt 0) tp && py_lt tp (VInt 1)) eqn:Htp01; [discriminate |].
  intros [= <-]. repeat split; try (intros [H | H]; discriminate H); intros;
    rewrite Product_init_unfold; cbv zeta;
    rewrite validate_shipping_weight, validate_unit_price, validate_tax_percent,
      Hsw, Hsw0, Hup, Hup0, Htp, Htp01; reflexivity.
Qed.

Lemma X5_first_refusal_is_reported_witness :
  Product_init "mango" "fruit" (VFloat (Float.dec (-1) 1)) (VInt 0) (VInt 7)
    = Raise (ValueError (greater_then_zero_msg "shipping_weight"))
  /\ (forall n' c' up' tp',
        Product_init n' c' (VFloat (Float.dec (-1) 1)) up' tp'
        = Raise (ValueError (greater_then_zero_msg "shipping_weight")))
  /\ (forall n' c',
        Product_init n' c' (VFloat (Float.dec (-1) 1)) (VInt 0) (VInt 7)
        = Raise (ValueError (greater_then_zero_msg "shipping_weight"))).
Proof.
  split; [vm_compute; reflexivity |].
  destruct (X5_first_refusal_is_reported "mango" "fruit"
              (VFloat (Float.dec (-1) 1)) (VInt 0) (VInt 7)
              (ValueError (greater_then_zero_msg "shipping_weight")))
    as (Hfirst & _ & Hnames); [vm_compute; reflexivity |].
  split; [apply Hfirst; right; reflexivity | exact Hnames].
Defined.

(** ** Equality of products, continued *)

(** X6: the equality attrs generates for [Product] is an equivalence:
    every product equals itself, the comparison is symmetric, and two
    products equal to a third are equal. *)
Theorem X6_Product_eq_equivalence :
  (forall p, Product_eq p p = true)
  /\ (forall p q, Product_eq p q = Product_eq q p)
  /\ (forall p q r,
        Product_eq p q = true -> Product_eq q r = true -> Product_eq p r = true).
Proof.
  unfold Product_eq. split; [| split].
  - intros p. now rewrite !String.eqb_refl.
  - intros p q.
    now rewrite (String.eqb_sym (str_lower (name p))),
                (String.eqb_sym (str_lower (category p))).
  - intros p q r.
    rewrite !andb_true_iff, !String.eqb_eq. intros [-> ->] [-> ->]. auto.
Qed.

(** ** Totals of an order, continued *)

Lemma calculate_sub_total_valid (self : Order) :
  Forall valid_Product (products self) ->
  calculate_sub_total self
  = Ok (VInt (Z_sum (map (fun p => int_value (unit_price p)) (products self)))).
Proof.
  intros Hvalid. unfold calculate_sub_total, py_sum.
  rewrite <- (map_map unit_price Ok), sum_from_ints.
  - now rewrite map_map.
  - apply Forall_map. eapply Forall_impl; [exact Hvalid |].
    intros p Hp. now apply valid_unit_price_int.
Qed.

Lemma Z_sum_Permutation (l l' : list Z) : Permutation l l' -> Z_sum l = Z_sum l'.
Proof.
  unfold Z_sum.
  induction 1 as [| x l l' _ IH | x y l | l l' l'' _ IH1 _ IH2];
    cbn [fold_right]; lia.
Qed.

(** X8: the sub total does not depend on the order of the products: two
    orders of valid products that hold the same products, in whatever
    order, have the same sub total. *)
Theorem X8_sub_total_any_order (self other : Order) :
  Forall valid_Product (products self) ->
  Permutation (products self) (products other) ->
  calculate_sub_total self = calculate_sub_total other.
Proof.
  intros Hvalid Hperm.
  assert (Forall valid_Product (products other)) as Hvalid'
    by (eapply Permutation_Forall; eassumption).
  rewrite !calculate_sub_total_valid by assumption.
  do 2 f_equal. apply Z_sum_Permutation. now apply Permutation_map.
Qed.

Lemma X8_sub_total_any_order_witness :
  Forall valid_Product (products (order_of_two new_year))
  /\ Permutation (products (order_of_two new_year))
       (products (add_item (add_item (openned new_year) mango) banana))
  /\ calculate_sub_total (order_of_two new_year)
     = calculate_sub_total (add_item (add_item (openned new_year) mango) banana).
Proof.
  assert (Forall valid_Product (products (order_of_two new_year))) as H.
  { repeat constructor; try reflexivity; eexists; repeat split; reflexivity. }
  assert (Permutation (products (order_of_two new_year))
            (products (add_item (add_item (openned new_year) mango) banana))) as HP.
  { apply perm_swap. }
  split; [exact H |]. split; [exact HP |].
  exact (X8_sub_total_any_order _ _ H HP).
Defined.

Lemma valid_unit_price_ge_1 p : valid_Product p -> 1 <= int_value (unit_price p).
Proof.
  intros (_ & Hint & Hup & _).
  destruct (unit_price p) as [z | [] | g]; try discriminate Hint;
    try discriminate Hup.
  - now apply py_le_0_int.
  - cbn. lia.
Qed.

(** X7: the sub total follows [add_item]. On an order of valid products,
    after [add_item(p)] with a valid product [p] the sub total is the sub
    total before plus the unit price of [p], hence strictly larger. *)
Theorem X7_sub_total_after_add_item (self : Order) (p : Product) :
  Forall valid_Product (products self) -> valid_Product p ->
  exists s,
    calculate_sub_total self = Ok (VInt s)
    /\ calculate_sub_total (add_item self p)
       = Ok (VInt (s + int_value (unit_price p)))
    /\ s < s + int_value (unit_price p).
Proof.
  intros Hvalid Hp.
  assert (Forall valid_Product (products (add_item self p))) as Hvalid'.
  { cbn [add_item products]. apply Forall_app. split; [exact Hvalid |].
    now constructor. }
  rewrite (calculate_sub_total_valid _ Hvalid), (calculate_sub_total_valid _ Hvalid').
  eexists. split; [reflexivity |]. split.
  - cbn [add_item products]. rewrite map_app. do 2 f_equal.
    unfold Z_sum. rewrite fold_right_app. cbn [map fold_right].
    generalize (map (fun p0 => int_value (unit_price p0)) (products self)).
    intros l. induction l as [| z l IH]; cbn [fold_right]; lia.
  - apply valid_unit_price_ge_1 in Hp. lia.
Qed.

Lemma X7_sub_total_after_add_item_witness :
  Forall valid_Product (products (order_of_two new_year))
  /\ valid_Product expensive_mango
  /\ exists s,
      calculate_sub_total (order_of_two new_year) = Ok (VInt s)
      /\ calculate_sub_total (add_item (order_of_two new_year) expensive_mango)
         = Ok (VInt (s + int_value (unit_price expensive_mango)))
      /\ s < s + int_value (unit_price expensive_mango).
Proof.
  assert (Forall valid_Product (products (order_of_two new_year))) as H.
  { repeat constructor; try reflexivity; eexists; repeat split; reflexivity. }
  assert (valid_Product expensive_mango) as Hp.
  { repeat split; try reflexivity; eexists; repeat split; reflexivity. }
  split; [exact H |]. split; [exact Hp |].
  exact (X7_sub_total_after_add_item _ _ H Hp).
Defined.

(** X9: on an order of valid products the sub total is an integer, and it
    is at least the number of products, every unit price being at least
    one: zero only for the empty order. *)
Theorem X9_sub_total_lower_bound (self : Order) :
  Forall valid_Product (products self) ->
  exists s, calculate_sub_total self = Ok (VInt s)
            /\ Z.of_nat (length (products self)) <= s
            /\ (s = 0 <-> products self = []).
Proof.
  intros Hvalid. rewrite calculate_sub_total_valid by assumption.
  eexists. split; [reflexivity |].
  assert (Z.of_nat (length (products self))
          <= Z_sum (map (fun p => int_value (unit_price p)) (products self))) as Hle.
  { induction Hvalid as [| p ps Hp _ IH]; [cbn; lia |].
    apply valid_unit_price_ge_1 in Hp. cbn [length map Z_sum fold_right].
    fold (Z_sum (map (fun p => int_value (unit_price p)) ps)). lia. }
  split; [exact Hle |]. split.
  - intros Hs. rewrite Hs in Hle. destruct (products self); [reflexivity |].
    cbn [length] in Hle. lia.
  - intros ->. reflexivity.
Qed.

Lemma X9_sub_total_lower_bound_witness :
  Forall valid_Product (products (order_of_two new_year))
  /\ exists s, calculate_sub_total (order_of_two new_year) = Ok (VInt s)
               /\ Z.of_nat (length (products (order_of_two new_year))) <= s
               /\ (s = 0 <-> products (order_of_two new_year) = []).
Proof.
  assert (Forall valid_Product (products (order_of_two new_year))) as H.
  { repeat constructor; try reflexivity; eexists; repeat split; reflexivity. }
  split; [exact H | exact (X9_sub_total_lower_bound _ H)].
Defined.

Lemma float_of_int_cases z :
  in_float_range z \/ float_of_int z = Raise OverflowError.
Proof.
  unfold in_float_range, float_of_int. destruct (Float.of_Z z); eauto.
Qed.

Lemma in_float_range_not_raise z :
  in_float_range z -> float_of_int z <> Raise OverflowError.
Proof. intros [f Hf]. rewrite Hf. discriminate. Qed.

(** The tax term of a valid product: a float, or [OverflowError] when the
    unit price does not convert. *)
Lemma tax_term_cases p :
  valid_Product p ->
  (in_float_range (int_value (unit_price p))
   /\ exists f, py_mul (unit_price p) (tax_percent p) = Ok (VFloat f))
  \/ (~ in_float_range (int_value (unit_price p))
      /\ py_mul (unit_price p) (tax_percent p) = Raise OverflowError).
Proof.
  intros Hvalid.
  destruct (float_of_int_cases (int_value (unit_price p))) as [Hin | Hout].
  - left. split; [exact Hin | now apply tax_term_float].
  - right. split; [intros Hin; now apply in_float_range_not_raise in Hin |].
    destruct Hvalid as (_ & Hint & _ & (t & -> & _)).
    destruct (unit_price p) as [z | b | g]; try discriminate Hint;
      cbn [int_value] in Hout; unfold py_mul, arith; rewrite Hout; reflexivity.
Qed.

Lemma py_add_zero_or_float acc x :
  zero_or_float acc -> exists g, py_add acc (VFloat x) = Ok (VFloat g).
Proof. intros [-> | [f ->]]; cbn; eauto. Qed.

Lemma tax_sum_cases (ps : list Product) acc :
  Forall valid_Product ps -> zero_or_float acc ->
  (Forall (fun p => in_float_range (int_value (unit_price p))) ps
   /\ exists v,
        sum_from acc (map (fun p => py_mul (unit_price p) (tax_percent p)) ps) = Ok v
        /\ zero_or_float v /\ (ps <> [] -> exists f, v = VFloat f))
  \/ (~ Forall (fun p => in_float_range (int_value (unit_price p))) ps
      /\ sum_from acc (map (fun p => py_mul (unit_price p) (tax_percent p)) ps)
         = Raise OverflowError).
Proof.
  intros Hvalid. revert acc.
  induction Hvalid as [| p ps Hp _ IH]; intros acc Hacc.
  - left. split; [constructor |]. exists acc. repeat split; [exact Hacc | congruence].
  - cbn [map sum_from].
    destruct (tax_term_cases p Hp) as [[Hin [x ->]] | [Hout ->]]; cbn [bind].
    + destruct (py_add_zero_or_float acc x Hacc) as [g ->]. cbn [bind].
      destruct (IH (VFloat g)) as [(Hall & v & Hv & Hshape & _) | [Hnot Hraise]];
        [right; eauto | |].
      * left. split; [now constructor |]. exists v. repeat split; try assumption.
        intros _. destruct ps as [| q qs].
        -- cbn in Hv. injection Hv as <-. eauto.
        -- destruct (IH (VFloat g)) as [(_ & v' & Hv' & _ & Hne) | [_ Hr]];
             [right; eauto | | congruence].
           rewrite Hv in Hv'. injection Hv' as <-. now apply Hne.
      * right. split; [| exact Hraise]. intros Hall. apply Hnot.
        now apply Forall_cons in Hall as [_ ?].
    + right. split; [| reflexivity]. intros Hall.
      now apply Forall_cons in Hall as [? _].
Qed.

(** X10: on an order of valid products, [calculate_tax] returns a number
    exactly when every unit price is in the range of [float]; otherwise
    the multiplication [unit_price * tax_percent] raises [OverflowError],
    the only exception it can end with. The number returned is a float,
    except for the empty order, where it is the [int] [0]. *)
Theorem X10_tax_returns_or_overflows (self : Order) :
  Forall valid_Product (products self) ->
  ((exists v, calculate_tax self = Ok v)
   <-> Forall (fun p => in_float_range (int_value (unit_price p))) (products self))
  /\ (forall e, calculate_tax self = Raise e -> e = OverflowError)
  /\ (forall v, calculate_tax self = Ok v ->
        (products self = [] /\ v = VInt 0)
        \/ (products self <> [] /\ exists f, v = VFloat f)).
Proof.
  intros Hvalid. unfold calculate_tax, py_sum.
  destruct (tax_sum_cases (products self) (VInt 0) Hvalid)
    as [(Hall & v & Hv & Hshape & Hne) | [Hnot Hraise]]; [now left | |].
  - rewrite Hv. split; [split; eauto |]. split; [discriminate |].
    intros v' [= <-]. destruct (products self) as [| p ps] eqn:Hps.
    + left. split; [reflexivity |]. cbn in Hv. now injection Hv as <-.
    + right. split; [discriminate |]. now apply Hne.
  - rewrite Hraise. split; [split; [intros [v Hv]; discriminate Hv | contradiction] |].
    split; [now intros e [= <-] | discriminate].
Qed.

Lemma X10_tax_returns_or_overflows_witness :
  Forall valid_Product (products (order_of_two new_year))
  /\ ((exists v, calculate_tax (order_of_two new_year) = Ok v)
      <-> Forall (fun p => in_float_range (int_value (unit_price p)))
            (products (order_of_two new_year)))
  /\ (forall e, calculate_tax (order_of_two new_year) = Raise e -> e = OverflowError)
  /\ (forall v, calculate_tax (order_of_two new_year) = Ok v ->
        (products (order_of_two new_year) = [] /\ v = VInt 0)
        \/ (products (order_of_two new_year) <> [] /\ exists f, v = VFloat f)).
Proof.
  assert (Forall valid_Product (products (order_of_two new_year))) as H.
  { repeat constructor; try reflexivity; eexists; repeat split; reflexivity. }
  split; [exact H | exact (X10_tax_returns_or_overflows _ H)].
Defined.

(** A valid product whose price is out of range, and the tax of an order
    that holds it. *)
Example priceless_overflows :
  Product_init "diamond" "jewel"
    (VFloat (Float.dec 5 10)) (VInt (2 ^ 1024)) (VFloat (Float.dec 7 100))
    = Ok priceless
  /\ calculate_tax (add_item (order_of_two new_year) priceless) = Raise OverflowError
  /\ calculate_total (add_item (order_of_two new_year) priceless)
     = Raise OverflowError.
Proof. repeat split; vm_compute; reflexivity. Qed.

Lemma valid_shipping_weight_float p :
  valid_Product p -> exists f, Ok (shipping_weight p) = Ok (VFloat f).
Proof. intros ((f & -> & _) & _). eauto. Qed.

Lemma sum_from_floats_float (items : list (result pyval)) a :
  Forall (fun item => exists f, item = Ok (VFloat f)) items ->
  exists f, sum_from (VFloat a) items = Ok (VFloat f).
Proof.
  intros H. revert a. induction H as [| item items [x ->] _ IH]; intros a.
  - cbn. eauto.
  - cbn [sum_from bind]. apply IH.
Qed.

Lemma sum_from_floats_nonempty (items : list (result pyval)) acc :
  zero_or_float acc -> items <> [] ->
  Forall (fun item => exists f, item = Ok (VFloat f)) items ->
  exists f, sum_from acc items = Ok (VFloat f).
Proof.
  intros Hacc Hne H. destruct H as [| item items [x ->] Hrest]; [congruence |].
  cbn [sum_from bind].
  destruct (py_add_zero_or_float acc x Hacc) as [g ->]. cbn [bind].
  now apply sum_from_floats_float.
Qed.

(** X11: on an order of valid products [total_weight] raises nothing: it
    returns the [int] [0] for the empty order and a float otherwise. *)
Theorem X11_total_weight_returns (self : Order) :
  Forall valid_Product (products self) ->
  (products self = [] /\ total_weight self = Ok (VInt 0))
  \/ (products self <> [] /\ exists f, total_weight self = Ok (VFloat f)).
Proof.
  intros Hvalid. unfold total_weight, py_sum.
  destruct (products self) as [| p ps] eqn:Hps; [left; split; reflexivity |].
  right. split; [discriminate |].
  apply sum_from_floats_nonempty; [now left | discriminate |].
  apply Forall_map. eapply Forall_impl; [exact Hvalid |].
  intros q Hq. now apply valid_shipping_weight_float.
Qed.

Lemma X11_total_weight_returns_witness :
  Forall valid_Product (products (order_of_two new_year))
  /\ ((products (order_of_two new_year) = []
       /\ total_weight (order_of_two new_year) = Ok (VInt 0))
      \/ (products (order_of_two new_year) <> []
          /\ exists f, total_weight (order_of_two new_year) = Ok (VFloat f))).
Proof.
  assert (Forall valid_Product (products (order_of_two new_year))) as H.
  { repeat constructor; try reflexivity; eexists; repeat split; reflexivity. }
  split; [exact H | exact (X11_total_weight_returns _ H)].
Defined.

Lemma Float_add_nan_l f : Float.add S754_nan f = S754_nan.
Proof. reflexivity. Qed.

Lemma Float_add_nan_r f : Float.add f S754_nan = S754_nan.
Proof. destruct f; reflexivity. Qed.

Lemma sum_from_nan (items : list (result pyval)) :
  Forall (fun item => exists f, item = Ok (VFloat f)) items ->
  sum_from (VFloat S754_nan) items = Ok (VFloat S754_nan).
Proof.
  induction 1 as [| item items [x ->] _ IH]; [reflexivity |].
  cbn [sum_from bind]. change (py_add (VFloat S754_nan) (VFloat x))
    with (Ok (VFloat (Float.add S754_nan x))).
  rewrite Float_add_nan_l. cbn [bind]. exact IH.
Qed.

Lemma sum_from_with_nan (items : list (result pyval)) acc :
  zero_or_float acc ->
  Forall (fun item => exists f, item = Ok (VFloat f)) items ->
  Ok (VFloat S754_nan) ∈ items ->
  sum_from acc items = Ok (VFloat S754_nan).
Proof.
  intros Hacc H. revert acc Hacc.
  induction H as [| item items [x ->] Hrest IH]; intros acc Hacc Hin.
  - now apply elem_of_nil in Hin.
  - apply elem_of_cons in Hin as [Heq | Hin].
    + injection Heq as <-. cbn [sum_from bind].
      assert (py_add acc (VFloat S754_nan) = Ok (VFloat S754_nan)) as ->.
      { destruct Hacc as [-> | [f ->]]; [reflexivity |].
        change (py_add (VFloat f) (VFloat S754_nan))
          with (Ok (VFloat (Float.add f S754_nan))).
        now rewrite Float_add_nan_r. }
      cbn [bind]. now apply sum_from_nan.
    + cbn [sum_from bind].
      destruct (py_add_zero_or_float acc x Hacc) as [g ->]. cbn [bind].
      apply IH; [right; eauto | exact Hin].
Qed.

(** X12: a NaN among the shipping weights, which the validator of the
    field lets in, takes the whole weight with it: [total_weight] of an
    order of valid products is a NaN as soon as one product weighs NaN. *)
Theorem X12_nan_weight_spreads (self : Order) (p : Product) :
  Forall valid_Product (products self) ->
  p ∈ products self -> shipping_weight p = VFloat S754_nan ->
  total_weight self = Ok (VFloat S754_nan).
Proof.
  intros Hvalid Hin Hnan. unfold total_weight, py_sum.
  apply sum_from_with_nan; [now left | |].
  - apply Forall_map. eapply Forall_impl; [exact Hvalid |].
    intros q Hq. now apply valid_shipping_weight_float.
  - apply list_elem_of_fmap. exists p. split; [now rewrite Hnan | exact Hin].
Qed.

Lemma X12_nan_weight_spreads_witness :
  Forall valid_Product (products (add_item (order_of_two new_year) weightless))
  /\ weightless ∈ products (add_item (order_of_two new_year) weightless)
  /\ shipping_weight weightless = VFloat S754_nan
  /\ total_weight (add_item (order_of_two new_year) weightless)
     = Ok (VFloat S754_nan).
Proof.
  assert (Forall valid_Product
            (products (add_item (order_of_two new_year) weightless))) as H.
  { repeat constructor; try reflexivity; eexists; repeat split; reflexivity. }
  assert (weightless ∈ products (add_item (order_of_two new_year) weightless)) as Hin.
  { cbn. do 2 apply list_elem_of_further. apply list_elem_of_here. }
  split; [exact H |]. split; [exact Hin |]. split; [reflexivity |].
  exact (X12_nan_weight_spreads _ weightless H Hin eq_refl).
Defined.

(** X13: on an order of valid products, [calculate_total] returns a
    number exactly when every unit price is in the range of [float] and,
    unless the order is empty, the sub total is in that range as well:
    the sub total is converted to a float to be added to the tax. The
    only exception it can end with is [OverflowError]. *)
Theorem X13_total_returns_or_overflows (self : Order) :
  Forall valid_Product (products self) ->
  ((exists v, calculate_total self = Ok v)
   <-> Forall (fun p => in_float_range (int_value (unit_price p))) (products self)
       /\ (products self = []
           \/ in_float_range
                (Z_sum (map (fun p => int_value (unit_price p)) (products self)))))
  /\ (forall e, calculate_total self = Raise e -> e = OverflowError).
Proof.
  intros Hvalid. unfold calculate_total.
  rewrite (calculate_sub_total_valid self Hvalid). cbn [bind].
  set (s := Z_sum (map (fun p => int_value (unit_price p)) (products self))).
  unfold calculate_tax, py_sum.
  destruct (tax_sum_cases (products self) (VInt 0) Hvalid)
    as [(Hall & v & Hv & Hshape & Hne) | [Hnot Hraise]]; [now left | |].
  - rewrite Hv. cbn [bind]. destruct (products self) as [| p ps] eqn:Hps.
    + cbn in Hv. injection Hv as <-. subst s. cbn.
      split; [| discriminate]. split; eauto.
    + destruct Hne as [t ->]; [discriminate |].
      change (py_add (VInt s) (VFloat t))
        with (x <- float_of_int s ;; Ok (VFloat (Float.add x t))).
      destruct (float_of_int_cases s) as [[fs Hfs] | Hout].
      * rewrite Hfs. cbn [bind]. split; [| discriminate].
        split; [intros _; split; [exact Hall | right; exists fs; exact Hfs] | eauto].
      * rewrite Hout. cbn [bind]. split; [| now intros e [= <-]].
        split; [intros [v Hv']; discriminate Hv' |].
        intros [_ [Hnil | Hin]]; [discriminate Hnil |].
        now apply in_float_range_not_raise in Hin.
  - rewrite Hraise. cbn [bind]. split; [| now intros e [= <-]].
    split; [intros [v Hv]; discriminate Hv | intros [Hall _]; contradiction].
Qed.

Lemma X13_total_returns_or_overflows_witness :
  Forall valid_Product (products (order_of_two new_year))
  /\ ((exists v, calculate_total (order_of_two new_year) = Ok v)
      <-> Forall (fun p => in_float_range (int_value (unit_price p)))
            (products (order_of_two new_year))
          /\ (products (order_of_two new_year) = []
              \/ in_float_range
                   (Z_sum (map (fun p => int_value (unit_price p))
                             (products (order_of_two new_year))))))
  /\ (forall e, calculate_total (order_of_two new_year) = Raise e
        -> e = OverflowError).
Proof.
  assert (Forall valid_Product (products (order_of_two new_year))) as H.
  { repeat constructor; try reflexivity; eexists; repeat split; reflexivity. }
  split; [exact H | exact (X13_total_returns_or_overflows _ H)].
Defined.

(** The total can overflow where the sub total and the tax both return. *)
Example total_overflows_alone :
  let order := add_item (add_item (openned new_year) half_of_too_much)
                 half_of_too_much in
  valid_Product half_of_too_much
  /\ calculate_sub_total order = Ok (VInt (2 ^ 1024))
  /\ (exists t, calculate_tax order = Ok (VFloat t))
  /\ calculate_total order = Raise OverflowError.
Proof.
  cbv zeta. split; [| split; [| split]].
  - repeat split; try reflexivity; eexists; repeat split; vm_compute; reflexivity.
  - vm_compute; reflexivity.
  - eexists. vm_compute. reflexivity.
  - vm_compute; reflexivity.
Qed.

(** ** The store, continued *)

(** X14: [add_item] on the store is [add_item] on the state of the order.
    In a store where [o] is an order whose products can be read and [p]
    is a product, the call succeeds; the order then shows the state
    [add_item] computes from the state before and the product at [p]; the
    list of references has [p] itself as its new last element; and no
    product object is changed. *)
Theorem X14_store_add_item h (o p : Store.loc) (ov : Order) (pv : Product) :
  Store.view h o = Some ov -> Store.get_product h p = Some pv ->
  exists h',
    Store.add_item o p h = Some h'
    /\ Store.view h' o = Some (add_item ov pv)
    /\ Store.product_refs h' o = (.++ [p]) <$> Store.product_refs h o
    /\ (forall x, Store.get_product h' x = Store.get_product h x).
Proof.
  intros Hview Hp.
  assert (exists st d l items,
            h !! o = Some (Store.OOrder st d l) /\ h !! l = Some (Store.OList items))
    as (st & d & l & items & Ho & Hl).
  { unfold Store.view in Hview.
    destruct (h !! o) as [[| |st d l] |] eqn:Ho; try discriminate.
    destruct (Store.product_refs h o) as [items |] eqn:Hrefs; [| discriminate].
    apply product_refs_Some in Hrefs as (st' & d' & l' & Ho' & Hl).
    rewrite Ho in Ho'. injection Ho' as <- <- <-. eauto 10. }
  assert (l <> o) as Hlo by (intros ->; congruence).
  pose proof (add_item_spec h o p st d l items Ho Hl) as Hadd.
  eexists. split; [exact Hadd |]. split; [| split].
  - exact (add_item_view h o p _ ov pv Hview Hp Hadd).
  - rewrite (proj2 (product_refs_Some h o items)) by eauto.
    apply product_refs_Some. exists st, d, l. split.
    + by rewrite lookup_insert_ne.
    + by rewrite lookup_insert_eq.
  - intros x. by eapply get_product_insert_list.
Qed.

Lemma X14_store_add_item_witness :
  Store.view stocked_run.2 stocked_run.1.1 = Some (mkOrder "openned" new_year [])
  /\ Store.get_product stocked_run.2 stocked_run.1.2 = Some banana
  /\ exists h',
      Store.add_item stocked_run.1.1 stocked_run.1.2 stocked_run.2 = Some h'
      /\ Store.view h' stocked_run.1.1
         = Some (add_item (mkOrder "openned" new_year []) banana)
      /\ Store.product_refs h' stocked_run.1.1
         = (.++ [stocked_run.1.2]) <$> Store.product_refs stocked_run.2 stocked_run.1.1
      /\ (forall x, Store.get_product h' x = Store.get_product stocked_run.2 x).
Proof.
  assert (Store.view stocked_run.2 stocked_run.1.1
          = Some (mkOrder "openned" new_year [])) as Hv
    by (vm_compute; reflexivity).
  assert (Store.get_product stocked_run.2 stocked_run.1.2 = Some banana) as Hp
    by (vm_compute; reflexivity).
  split; [exact Hv |]. split; [exact Hp |].
  exact (X14_store_add_item _ _ _ _ _ Hv Hp).
Defined.

(** ** Totals of an order in binary64 arithmetic *)















(** The two terms and their sum are the doubles that the decimal
    expansions of the specification round to. *)
Example tax_of_two :
  tax_term banana = Float.dec 1505 100
  /\ tax_term mango = Float.dec 3509 100
  /\ SFadd 53 1024 (tax_term banana) (tax_term mango) = Float.dec 5014 100.
Proof. repeat split; vm_compute; reflexivity. Qed.
